(** * dcmreader: the dataset walker and the field extractors built on it

    A shallow embedding of [dcmio/dcmreader/dcmreader.py].  The walker
    [walk] searches a decoded DICOM dataset (a dictionary from tags to data
    elements, where a sequence element holds a list of nested datasets) for
    the value of a tag; each [get_*] function binds the walker to one tag
    and post-processes what it finds. *)

From Stdlib Require Import List ZArith NArith Bool Lia String Ascii.
From Stdlib Require Import Sorted Permutation.
From Stdlib Require Import PrimFloat SpecFloat FloatOps DecimalString.
From Stdlib Require DecimalPos.
Import ListNotations.

Local Open Scope string_scope.
Local Open Scope Z_scope.
Local Open Scope list_scope.
#[local] Set Warnings "-register-all".

(** ** Python values, exceptions *)

(** A tag is the pair (group, element); pydicom stores it as the integer
    [group * 65536 + element], so that comparing tags as integers is the
    lexicographic comparison of the pairs (both components are 16-bit). *)
Definition Tag : Type := (N * N)%type.

Definition tag_eqb (a b : Tag) : bool :=
  (N.eqb (fst a) (fst b) && N.eqb (snd a) (snd b))%bool.

Definition tag_ltb (a b : Tag) : bool :=
  (N.ltb (fst a) (fst b) || (N.eqb (fst a) (fst b) && N.ltb (snd a) (snd b)))%bool.

Definition tag_leb (a b : Tag) : bool := negb (tag_ltb b a).

Definition tag_int (a : Tag) : N := (fst a * 65536 + snd a)%N.

(** The values the program handles: [None], integers, floats, strings,
    lists (a multi-valued element, or the list the walker accumulates), the
    value of a sequence element, a list of datasets, and the value of an
    element of kind "UI", a unique identifier: pydicom makes it a [UID], a
    string in every respect but its text, which is the name its dictionary
    gives to the identifier. *)
Inductive pyvalue : Type :=
| PNone
| PInt (z : Z)
| PFloat (f : float)
| PStr (s : string)
| PList (l : list pyvalue)
| PSeq (items : list dataset)
| PUID (uid : string)
with data_element : Type :=
| DataElement (tag : Tag) (VR : string) (value : pyvalue)
with dataset : Type :=
| Dataset (elems : list data_element).

Definition tag (de : data_element) : Tag := let (t, _, _) := de in t.
Definition VR (de : data_element) : string := let (_, vr, _) := de in vr.
Definition value (de : data_element) : pyvalue := let (_, _, v) := de in v.
Definition elems (ds : dataset) : list data_element := let (l) := ds in l.

Inductive exn : Type :=
| KeyError | IndexError | TypeError | AttributeError | ValueError | OverflowError
| RecursionError | IOError | OSError | UnboundLocalError.

(** A computation either returns or raises. *)
Inductive outcome (A : Type) : Type :=
| Ok (a : A)
| Raise (e : exn).
Arguments Ok {A} a.
Arguments Raise {A} e.

Definition bind {A B : Type} (m : outcome A) (k : A -> outcome B) : outcome B :=
  match m with
  | Ok a => k a
  | Raise e => Raise e
  end.

Notation "x <- m ;; k" := (bind m (fun x => k))
  (at level 61, m at next level, right associativity).

(** Python truthiness, as tested by [if out:]. *)
Definition truthy (v : pyvalue) : bool :=
  match v with
  | PNone => false
  | PInt z => negb (Z.eqb z 0)
  | PFloat f => negb (PrimFloat.eqb f zero)
  | PStr s | PUID s => negb (String.eqb s "")
  | PList l => match l with [] => false | _ => true end
  | PSeq l => match l with [] => false | _ => true end
  end.

(** ** The dataset as a dictionary keyed by tag *)

(** [dataset.keys()]: pydicom files every element under its own tag. *)
Definition keys (ds : dataset) : list Tag := map tag (elems ds).

(** [dataset[tag]] *)
Definition getitem (ds : dataset) (t : Tag) : outcome data_element :=
  match find (fun de => tag_eqb (tag de) t) (elems ds) with
  | Some de => Ok de
  | None => Raise KeyError
  end.

(** [tag in dataset] *)
Definition contains_tag (ds : dataset) (t : Tag) : bool :=
  existsb (fun de => tag_eqb (tag de) t) (elems ds).

(** Sorting by tag, by insertion.  The order on tags is total and equal
    tags are identical, so on tags the result does not depend on the
    algorithm. *)
Fixpoint insert_by {A : Type} (key : A -> Tag) (x : A) (l : list A) : list A :=
  match l with
  | [] => [x]
  | y :: r => if tag_leb (key x) (key y) then x :: l else y :: insert_by key x r
  end.

Fixpoint sort_by {A : Type} (key : A -> Tag) (l : list A) : list A :=
  match l with
  | [] => []
  | x :: r => insert_by key x (sort_by key r)
  end.

(** [sorted(...)] on a list of tags. *)
Definition sorted (l : list Tag) : list Tag := sort_by (fun t => t) l.

(** ** walker_callback and walk *)

Definition walker_callback (de : data_element) (_tag : Tag) : pyvalue :=
  if tag_eqb (tag de) _tag then value de else PNone.

(** [for sub_dataset in sequence], where [sequence] is the element's value.
    A sequence yields its datasets.  Any other value either is not iterable
    ([TypeError]) or yields an item that is no dataset, on which the
    recursive call fails at [dataset.keys()] ([AttributeError]); an empty
    string or list yields nothing. *)
Definition iter_datasets (v : pyvalue) : outcome (list dataset) :=
  match v with
  | PSeq items => Ok items
  | PStr s | PUID s => if String.eqb s "" then Ok [] else Raise AttributeError
  | PList l => match l with [] => Ok [] | _ => Raise AttributeError end
  | PNone | PInt _ | PFloat _ => Raise TypeError
  end.

(** [out_list.extend(out)] *)
Definition extend (out_list : list pyvalue) (out : pyvalue) : outcome (list pyvalue) :=
  match out with
  | PList l => Ok (out_list ++ l)
  | _ => Raise TypeError
  end.

(** What one step of a loop of [walk] does: go on with the accumulator, or
    leave the function with a value. *)
Inductive control : Type :=
| Next (out_list : list pyvalue)
| Return (out : pyvalue).

Section Walk.

(** The recursive call [walk(sub_dataset, callback, _tag, stack_values)]. *)
Variable rec : dataset -> outcome pyvalue.
Variable callback : data_element -> Tag -> pyvalue.
Variable _tag : Tag.
Variable stack_values : bool.

(** The inner loop, lines 58-65. *)
Fixpoint walk_sequence (sequence : list dataset) (out_list : list pyvalue)
  : outcome control :=
  match sequence with
  | [] => Ok (Next out_list)
  | sub_dataset :: more =>
      out <- rec sub_dataset ;;
      if truthy out then
        if stack_values then
          out_list' <- extend out_list out ;;
          walk_sequence more out_list'
        else Ok (Return out)
      else walk_sequence more out_list
  end.

(** The body of the outer loop, lines 49-65. *)
Definition walk_element (ds : dataset) (t : Tag) (out_list : list pyvalue)
  : outcome control :=
  data_element <- getitem ds t ;;
  let out := callback data_element _tag in
  if truthy out then
    if stack_values then Ok (Next (out_list ++ [out]))
    else Ok (Return out)
  else if (contains_tag ds t && String.eqb (VR data_element) "SQ")%bool then
    sequence <- iter_datasets (value data_element) ;;
    walk_sequence sequence out_list
  else Ok (Next out_list).

(** The outer loop and the two final returns, lines 48-69. *)
Fixpoint walk_tags (ds : dataset) (taglist : list Tag) (out_list : list pyvalue)
  : outcome pyvalue :=
  match taglist with
  | [] => if stack_values then Ok (PList out_list) else Ok PNone
  | t :: rest =>
      c <- walk_element ds t out_list ;;
      match c with
      | Return out => Ok out
      | Next out_list' => walk_tags ds rest out_list'
      end
  end.

Definition walk_body (ds : dataset) : outcome pyvalue :=
  walk_tags ds (sorted (keys ds)) [].

End Walk.

(** [walk] with a bound on the depth of the recursion: the interpreter
    raises [RecursionError] when the stack is exhausted. *)
Fixpoint walk_fuel (fuel : nat) (ds : dataset)
  (callback : data_element -> Tag -> pyvalue) (_tag : Tag) (stack_values : bool)
  : outcome pyvalue :=
  match fuel with
  | O => Raise RecursionError
  | S fuel' =>
      walk_body (fun sub => walk_fuel fuel' sub callback _tag stack_values)
        callback _tag stack_values ds
  end.

(** The nesting depth of a dataset: the number of recursive calls the
    deepest chain of sequence items needs. *)
Fixpoint depth_value (v : pyvalue) : nat :=
  match v with
  | PSeq items => list_max (map (fun d => S (depth d)) items)
  | _ => O
  end
with depth_element (de : data_element) : nat :=
  match de with
  | DataElement _ _ v => depth_value v
  end
with depth (ds : dataset) : nat :=
  match ds with
  | Dataset l => list_max (map depth_element l)
  end.

(** [walk(dataset, callback, _tag, stack_values)], run with a stack deep
    enough for the dataset (see [walk_fuel_enough] and [walk_unfold]). *)
Definition walk (ds : dataset) (callback : data_element -> Tag -> pyvalue)
  (_tag : Tag) (stack_values : bool) : outcome pyvalue :=
  walk_fuel (S (depth ds)) ds callback _tag stack_values.

(** ** Strings and numbers of the interpreter *)

(** [needle in hay] *)
Fixpoint str_contains (needle hay : string) : bool :=
  (String.prefix needle hay ||
   match hay with
   | EmptyString => false
   | String _ hay' => str_contains needle hay'
   end)%bool.

(** [s.replace(old, new)] for a non-empty [old]: occurrences are replaced
    from the left and do not overlap; [skip] counts the characters of the
    occurrence just replaced that are still to be dropped. *)
Fixpoint replace_from (old new : string) (skip : nat) (s : string) : string :=
  match s with
  | EmptyString => EmptyString
  | String c s' =>
      match skip with
      | S k => replace_from old new k s'
      | O =>
          if String.prefix old s
          then (new ++ replace_from old new (String.length old - 1) s')%string
          else String c (replace_from old new O s')
      end
  end.

(** With an empty [old], [new] is put before every character and at the end. *)
Fixpoint interleave (new s : string) : string :=
  match s with
  | EmptyString => new
  | String c s' => (new ++ String c (interleave new s'))%string
  end.

Definition str_replace (s old new : string) : string :=
  if String.eqb old "" then interleave new s else replace_from old new O s.

(** [s.split(sep)]: [cur] is the piece being read. *)
Fixpoint split_from (sep : string) (skip : nat) (cur s : string) : list string :=
  match s with
  | EmptyString => [cur]
  | String c s' =>
      match skip with
      | S k => split_from sep k cur s'
      | O =>
          if String.prefix sep s
          then cur :: split_from sep (String.length sep - 1) "" s'
          else split_from sep O (cur ++ String c "")%string s'
      end
  end.

Definition str_split (s sep : string) : outcome (list string) :=
  if String.eqb sep "" then Raise ValueError else Ok (split_from sep O "" s).

(** [l[0]] *)
Definition first_item (l : list string) : outcome string :=
  match l with
  | x :: _ => Ok x
  | [] => Raise IndexError
  end.

(** [s[-n:]] *)
Definition str_last (n : nat) (s : string) : string :=
  String.substring (String.length s - n) n s.

(** [str(z)] for an integer. *)
Definition str_of_Z (z : Z) : string := NilZero.string_of_int (Z.to_int z).

Definition is_space (c : ascii) : bool :=
  let n := nat_of_ascii c in
  (Nat.eqb n 32 || (Nat.leb 9 n && Nat.leb n 13))%bool.

Fixpoint lstrip (s : string) : string :=
  match s with
  | String c s' => if is_space c then lstrip s' else s
  | EmptyString => EmptyString
  end.

Fixpoint rstrip (s : string) : string :=
  match s with
  | String c s' =>
      match rstrip s' with
      | EmptyString => if is_space c then EmptyString else String c EmptyString
      | r => String c r
      end
  | EmptyString => EmptyString
  end.

Definition digit_of (c : ascii) : option Z :=
  let n := nat_of_ascii c in
  if (Nat.leb 48 n && Nat.leb n 57)%bool then Some (Z.of_nat n - 48) else None.

(** The value of a string of decimal digits, [acc] being the value read so
    far; [None] when a character is no digit. *)
Fixpoint digits_value (acc : Z) (s : string) : option Z :=
  match s with
  | EmptyString => Some acc
  | String c s' =>
      match digit_of c with
      | Some d => digits_value (10 * acc + d) s'
      | None => None
      end
  end.

Definition unsigned_value (s : string) : outcome Z :=
  match s with
  | EmptyString => Raise ValueError
  | _ => match digits_value 0 s with
         | Some z => Ok z
         | None => Raise ValueError
         end
  end.

(** [int(s)] for a string: surrounding white space is dropped, then an
    optional sign and at least one decimal digit must remain (ASCII digits,
    without the underscores that recent interpreters accept between
    digits). *)
Definition int_of_str (s : string) : outcome Z :=
  match rstrip (lstrip s) with
  | String c body =>
      if Ascii.eqb c "-" then z <- unsigned_value body ;; Ok (- z)
      else if Ascii.eqb c "+" then unsigned_value body
      else unsigned_value (String c body)
  | EmptyString => Raise ValueError
  end.

(** [int(f)] for a float: truncation towards zero. *)
Definition int_of_float (f : float) : outcome Z :=
  match Prim2SF f with
  | S754_zero _ => Ok 0
  | S754_infinity _ => Raise OverflowError
  | S754_nan => Raise ValueError
  | S754_finite sign m e =>
      let a := if Z.leb 0 e then Z.shiftl (Z.pos m) e else Z.shiftr (Z.pos m) (- e) in
      Ok (if sign then - a else a)
  end.

(** [int(value)] *)
Definition py_int (v : pyvalue) : outcome Z :=
  match v with
  | PInt z => Ok z
  | PFloat f => int_of_float f
  | PStr s | PUID s => int_of_str s
  | PNone | PList _ | PSeq _ => Raise TypeError
  end.

(** [float(z)] for an integer: the nearest float, ties to even;
    [OverflowError] when that is beyond the largest float. *)
Definition float_of_Z (z : Z) : outcome float :=
  let f := SF2Prim (binary_normalize prec emax z 0 false) in
  if PrimFloat.eqb (PrimFloat.abs f) infinity then Raise OverflowError else Ok f.

(** [tr < 1000] for a number.  For another operand the comparison is
    taken as Python 3 makes it, a [TypeError]; the statements below are
    about numbers only. *)
Definition lt_1000 (v : pyvalue) : outcome bool :=
  match v with
  | PInt z => Ok (Z.ltb z 1000)
  | PFloat f => Ok (PrimFloat.ltb f 1000%float)
  | _ => Raise TypeError
  end.

(** [tr * 1000.] *)
Definition times_1000 (v : pyvalue) : outcome pyvalue :=
  match v with
  | PInt z => f <- float_of_Z z ;; Ok (PFloat (PrimFloat.mul f 1000%float))
  | PFloat f => Ok (PFloat (PrimFloat.mul f 1000%float))
  | _ => Raise TypeError
  end.

(** ** The field extractors *)

Section Extractors.

(** [dicom.read_file(path, force=True)], the decoder. *)
Variable read_file : string -> outcome dataset.

(** The interpreter's text for a float, a list or a sequence. *)
Variable builtin_repr : pyvalue -> string.

(** [UID_dictionary] of pydicom: the name registered for an identifier. *)
Variable uid_dictionary : string -> option string.

(** [str(uid)] for a [UID]: its name when the dictionary has one, the
    identifier itself otherwise. *)
Definition uid_text (uid : string) : string :=
  match uid_dictionary uid with
  | Some name => name
  | None => uid
  end.

(** [str(value)], also ["{0}".format(value)]. *)
Definition py_str (v : pyvalue) : string :=
  match v with
  | PStr s => s
  | PUID uid => uid_text uid
  | PInt z => str_of_Z z
  | PNone => "None"
  | PFloat _ | PList _ | PSeq _ => builtin_repr v
  end.

(** [value.replace(" ", "_")]: only a string has the method; on a [UID]
    it works on the identifier, not on its name. *)
Definition replace_spaces (v : pyvalue) : outcome string :=
  match v with
  | PStr s | PUID s => Ok (str_replace s " " "_")
  | _ => Raise AttributeError
  end.

Definition get_repetition_time (path_to_dicom : string) : outcome (option string) :=
  dataset <- read_file path_to_dicom ;;
  tr <- walk dataset walker_callback (0x0018, 0x0080)%N false ;;
  if truthy tr then
    below <- lt_1000 tr ;;
    tr' <- (if below : bool then times_1000 tr else Ok tr) ;;
    Ok (Some (py_str tr'))
  else Ok None.

Definition get_sop_storage_type (path_to_dicom : string) : outcome bool :=
  dataset <- read_file path_to_dicom ;;
  value <- walk dataset walker_callback (0x0008, 0x0016)%N false ;;
  if truthy value then
    if str_contains "Enhanced" (py_str value) then Ok true else Ok false
  else Ok false.

Definition get_nb_slices (path_to_dicom : string) : outcome Z :=
  dataset <- read_file path_to_dicom ;;
  value <- walk dataset walker_callback (0x0020, 0x1002)%N false ;;
  if truthy value then py_int value
  else
    value <- walk dataset walker_callback (0x2001, 0x1018)%N false ;;
    if truthy value then py_int value
    else Ok 0.

Definition get_manufacturer_name (path_to_dicom : string) : outcome string :=
  dataset <- read_file path_to_dicom ;;
  value <- walk dataset walker_callback (0x0008, 0x0070)%N false ;;
  if truthy value then replace_spaces value else Ok "unknown".

Definition get_manufacturer_model_name (path_to_dicom : string) : outcome string :=
  dataset <- read_file path_to_dicom ;;
  value <- walk dataset walker_callback (0x0008, 0x1090)%N false ;;
  if truthy value then replace_spaces value else Ok "unknown".

Definition get_sequence_name (path_to_dicom : string) : outcome string :=
  dataset <- read_file path_to_dicom ;;
  value <- walk dataset walker_callback (0x0008, 0x103e)%N false ;;
  if truthy value then replace_spaces value else Ok "unknown".

Definition get_SOPInstanceUID (path_to_dicom : string) : outcome string :=
  dataset <- read_file path_to_dicom ;;
  value <- walk dataset walker_callback (0x0008, 0x0018)%N false ;;
  if truthy value then replace_spaces value else Ok "unknown".

Definition get_protocol_name (path_to_dicom : string) : outcome string :=
  dataset <- read_file path_to_dicom ;;
  value <- walk dataset walker_callback (0x0018, 0x1030)%N false ;;
  if truthy value then replace_spaces value else Ok "unknown".

Definition get_serie_serieInstanceUID (path_to_dicom : string) : outcome string :=
  dataset <- read_file path_to_dicom ;;
  value <- walk dataset walker_callback (0x0020, 0x000e)%N false ;;
  if truthy value then replace_spaces value else Ok "unknown".

End Extractors.

(** ** The slice count of Philips files, read from the text of dcmdump *)

(** A file holds lines of text, or cannot be read: reading it raises (an
    input/output error, or bytes that do not decode as text). *)
Inductive file_content : Type :=
| Text (lines : list string)
| Unreadable.

Definition filesystem : Type := string -> option file_content.

(** The world of the function: what every path holds, the warnings
    logged, and the file that each path names ([resolve]: two spellings
    that resolve alike, such as "sub//temp.txt" and "sub/temp.txt", or a
    link and its target, are one file). *)
Record world : Type := World {
  files : filesystem;
  warnings : list string;
  resolve : string -> string
}.

(** A step of the [try] block: it returns or raises, and leaves a world. *)
Definition io (A : Type) : Type := world -> outcome A * world.

Definition io_ret {A : Type} (a : A) : io A := fun w => (Ok a, w).

Definition io_raise {A : Type} (e : exn) : io A := fun w => (Raise e, w).

Definition io_bind {A B : Type} (m : io A) (k : A -> io B) : io B :=
  fun w =>
    match m w with
    | (Ok a, w') => k a w'
    | (Raise e, w') => (Raise e, w')
    end.

Definition io_lift {A : Type} (m : outcome A) : io A := fun w => (m, w).

Notation "x <~ m ;; k" := (io_bind m (fun x => k))
  (at level 61, m at next level, right associativity).

Definition has_slash (s : string) : bool := str_contains "/" s.

(** [p[:p.rfind('/') + 1]] *)
Fixpoint upto_last_slash (p : string) : string :=
  match p with
  | EmptyString => EmptyString
  | String c r =>
      if has_slash r then String c (upto_last_slash r)
      else if Ascii.eqb c "/" then "/" else EmptyString
  end.

(** [head.rstrip('/')] *)
Fixpoint rstrip_slash (s : string) : string :=
  match s with
  | String c s' =>
      match rstrip_slash s' with
      | EmptyString => if Ascii.eqb c "/" then EmptyString else String c EmptyString
      | r => String c r
      end
  | EmptyString => EmptyString
  end.

(** [os.path.dirname(p)]: a head made of slashes only is kept as it is. *)
Definition dirname (p : string) : string :=
  let head := upto_last_slash p in
  match rstrip_slash head with
  | EmptyString => head
  | stripped => stripped
  end.

Fixpoint ends_with_slash (s : string) : bool :=
  match s with
  | EmptyString => false
  | String c EmptyString => Ascii.eqb c "/"
  | String _ s' => ends_with_slash s'
  end.

(** [os.path.join(a, b)] *)
Definition path_join (a b : string) : string :=
  if String.prefix "/" b then b
  else if (String.eqb a "" || ends_with_slash a)%bool then (a ++ b)%string
  else (a ++ "/" ++ b)%string.

(** The files once the file named by [path] is removed: no spelling of it
    holds anything any more. *)
Definition remove_file (resolve : string -> string) (fs : filesystem)
  (path : string) : filesystem :=
  fun p => if String.eqb (resolve p) (resolve path) then None else fs p.

(** [open(path, "r")] *)
Definition open_read (path : string) : io file_content :=
  fun w =>
    match files w path with
    | Some c => (Ok c, w)
    | None => (Raise IOError, w)
    end.

(** [buff.readlines()] *)
Definition readlines (buff : file_content) : io (list string) :=
  match buff with
  | Text lines => io_ret lines
  | Unreadable => io_raise IOError
  end.

(** [os.remove(path)] *)
Definition os_remove (path : string) : io unit :=
  fun w =>
    match files w path with
    | Some _ =>
        (Ok tt, World (remove_file (resolve w) (files w) path) (warnings w) (resolve w))
    | None => (Raise OSError, w)
    end.

(** [logging.warning(msg)] *)
Definition logging_warning (msg : string) (w : world) : world :=
  World (files w) (warnings w ++ [msg]) (resolve w).

(** The loop of lines 516-519: [temp] is bound to the first line that holds
    the marker, and stays unbound when there is none. *)
Definition find_marker_line (lines : list string) : option string :=
  find (fun line => str_contains "StackNumberOfSlices" line) lines.

Section Philips.

(** [os.system(command)]: what the shell and dcmdump do to the files. *)
Variable os_system : string -> filesystem -> filesystem.

Definition run_system (command : string) : io unit :=
  fun w => (Ok tt, World (os_system command (files w)) (warnings w) (resolve w)).

Definition temporary_text_file_of (path_to_dicom : string) : string :=
  path_join (dirname path_to_dicom) "temp.txt".

(** The [try] block, lines 508-527.  [buff.close()] between the loop and
    [os.remove] changes nothing that is modelled. *)
Definition philips_try (path_to_dicom : string) : io Z :=
  let temporary_text_file := temporary_text_file_of path_to_dicom in
  _ <~ run_system ("dcmdump " ++ path_to_dicom ++ " > " ++ temporary_text_file)%string ;;
  buff <~ open_read temporary_text_file ;;
  lines <~ readlines buff ;;
  let temp := find_marker_line lines in
  _ <~ os_remove temporary_text_file ;;
  line <~ match temp with
          | Some line => io_ret line
          | None => io_raise UnboundLocalError
          end ;;
  let value := str_replace line " " "" in
  pieces <~ io_lift (str_split value "#") ;;
  piece <~ io_lift (first_item pieces) ;;
  io_lift (int_of_str (str_last 2 piece)).

(** The bare [except:] turns every exception into a warning and 0. *)
Definition get_number_of_slices_philips (path_to_dicom : string) (w : world)
  : Z * world :=
  match philips_try path_to_dicom w with
  | (Ok n, w') => (n, w')
  | (Raise _, w') => (0, logging_warning "WARNING: no 'NumberOfSlicesMR' field" w')
  end.

End Philips.

(** ** The tagged tree of the data model *)

Definition is_sequence (v : pyvalue) : bool :=
  match v with
  | PSeq _ => true
  | _ => false
  end.

(** The invariant of a field: its value is a list of datasets if and only
    if its kind is "SQ". *)
Definition field_invariant (de : data_element) : bool :=
  Bool.eqb (String.eqb (VR de) "SQ") (is_sequence (value de)).

(** A dictionary holds one element per key. *)
Fixpoint unique_tags (l : list Tag) : bool :=
  match l with
  | [] => true
  | t :: r => (negb (existsb (tag_eqb t) r) && unique_tags r)%bool
  end.

(** [P] holds of every field and [Q] of every dataset, at any depth. *)
Fixpoint forall_value (P : data_element -> bool) (Q : dataset -> bool)
  (v : pyvalue) : bool :=
  match v with
  | PSeq items => forallb (forall_dataset P Q) items
  | _ => true
  end
with forall_element (P : data_element -> bool) (Q : dataset -> bool)
  (de : data_element) : bool :=
  match de with
  | DataElement t vr v => (P (DataElement t vr v) && forall_value P Q v)%bool
  end
with forall_dataset (P : data_element -> bool) (Q : dataset -> bool)
  (ds : dataset) : bool :=
  match ds with
  | Dataset l => (Q (Dataset l) && forallb (forall_element P Q) l)%bool
  end.

(** A tagged tree: every field keeps the invariant, every dataset is a
    dictionary. *)
Definition tagged_tree (ds : dataset) : bool :=
  forall_dataset field_invariant (fun d => unique_tags (keys d)) ds.

(** The field invariant alone. *)
Definition fields_invariant (ds : dataset) : bool :=
  forall_dataset field_invariant (fun _ => true) ds.

(** No field of the tree, at any depth, has the tag [t]. *)
Definition tag_absent (t : Tag) (ds : dataset) : bool :=
  forall_dataset (fun de => negb (tag_eqb (tag de) t)) (fun _ => true) ds.

(** The values of the fields whose own tag is [t], one entry per field, in
    depth-first order with the fields of each dataset taken by increasing
    tag; the search does not go below a field that has the tag. *)
Fixpoint matches_value (t : Tag) (v : pyvalue) : list pyvalue :=
  match v with
  | PSeq items => flat_map (matches t) items
  | _ => []
  end
with matches_element (t : Tag) (de : data_element) : list pyvalue :=
  match de with
  | DataElement tg _ v => if tag_eqb tg t then [v] else matches_value t v
  end
with matches (t : Tag) (ds : dataset) : list pyvalue :=
  match ds with
  | Dataset l =>
      flat_map snd (sort_by fst (map (fun de => (tag de, matches_element t de)) l))
  end.

(** The first element of a list of values, [None] when it is empty. *)
Definition first_or_none (l : list pyvalue) : pyvalue :=
  match l with
  | v :: _ => v
  | [] => PNone
  end.

(** ** What the walker is expected to return *)

Definition tag_le (a b : Tag) : Prop := tag_leb a b = true.

(** [d] is an item of a sequence held by an element of [ds]. *)
Definition child (ds d : dataset) : Prop :=
  exists de items, In de (elems ds) /\ value de = PSeq items /\ In d items.

(** The entries the walker keeps: those that are true. *)
Definition found (t : Tag) (ds : dataset) : list pyvalue :=
  filter truthy (matches t ds).

(** The value returned for the entries [l]: all of them, or the first. *)
Definition walk_result (stack_values : bool) (l : list pyvalue) : pyvalue :=
  if stack_values then PList l else first_or_none l.

(** The state of a loop after the entries [l] were met. *)
Definition after (stack_values : bool) (out_list l : list pyvalue) : control :=
  if stack_values then Next (out_list ++ l)
  else match l with
       | [] => Next out_list
       | v :: _ => Return v
       end.

Definition finish (stack_values : bool) (c : control) : pyvalue :=
  match c with
  | Return v => v
  | Next out_list => if stack_values then PList out_list else PNone
  end.

(** ** The texts the extractors are expected to return *)

(** Every space becomes an underscore, every other character stays. *)
Fixpoint underscore_spaces (s : string) : string :=
  match s with
  | EmptyString => EmptyString
  | String c s' => String (if Ascii.eqb c " " then "_"%char else c) (underscore_spaces s')
  end.

(** What a free-text extractor owes for the tag [t]: the string found, or
    the identifier found, with every space turned into an underscore,
    "unknown" when nothing is found. *)
Definition free_text_contract (extract : string -> outcome string) (t : Tag)
  (ds : dataset) (path_to_dicom : string) : Prop :=
  (forall s, walk ds walker_callback t false = Ok (PStr s) ->
             extract path_to_dicom = Ok (underscore_spaces s)) /\
  (forall s, walk ds walker_callback t false = Ok (PUID s) ->
             extract path_to_dicom = Ok (underscore_spaces s)) /\
  (walk ds walker_callback t false = Ok PNone ->
   extract path_to_dicom = Ok "unknown").

(** The line without its spaces. *)
Fixpoint without_spaces (s : string) : string :=
  match s with
  | EmptyString => EmptyString
  | String c s' => if Ascii.eqb c " " then without_spaces s' else String c (without_spaces s')
  end.

(** The part of the line before its first '#'. *)
Fixpoint before_hash (s : string) : string :=
  match s with
  | EmptyString => EmptyString
  | String c s' => if Ascii.eqb c "#" then EmptyString else String c (before_hash s')
  end.

(** The integer read at the end of the marker line, 0 when there is none. *)
Definition parsed_count (line : string) : Z :=
  match int_of_str (str_last 2 (before_hash (without_spaces line))) with
  | Ok n => n
  | Raise _ => 0
  end.

Fixpoint all_digits (s : string) : bool :=
  match s with
  | EmptyString => true
  | String c s' =>
      match digit_of c with
      | Some _ => all_digits s'
      | None => false
      end
  end.

(** The decimal text of a positive integer. *)
Fixpoint uint_value (acc : Z) (d : Decimal.uint) : Z :=
  match d with
  | Decimal.Nil => acc
  | Decimal.D0 l => uint_value (10 * acc + 0) l
  | Decimal.D1 l => uint_value (10 * acc + 1) l
  | Decimal.D2 l => uint_value (10 * acc + 2) l
  | Decimal.D3 l => uint_value (10 * acc + 3) l
  | Decimal.D4 l => uint_value (10 * acc + 4) l
  | Decimal.D5 l => uint_value (10 * acc + 5) l
  | Decimal.D6 l => uint_value (10 * acc + 6) l
  | Decimal.D7 l => uint_value (10 * acc + 7) l
  | Decimal.D8 l => uint_value (10 * acc + 8) l
  | Decimal.D9 l => uint_value (10 * acc + 9) l
  end.

(** ** Sample datasets and dumps *)

(** A tree without the slice-count tag (0020,1002). *)
Definition manufacturer_tree : dataset :=
  Dataset [ DataElement (0x0008, 0x0070)%N "LO" (PStr "General Electric");
            DataElement (0x5200, 0x9229)%N "SQ"
              (PSeq [Dataset [DataElement (0x0018, 0x0080)%N "DS" (PInt 2000)]]) ].

(** Two frames with the diffusion b-values 0 and 1000. *)
Definition b_value_tree : dataset :=
  Dataset [ DataElement (0x5200, 0x9230)%N "SQ"
              (PSeq [Dataset [DataElement (0x0018, 0x9087)%N "FD" (PFloat 0)];
                     Dataset [DataElement (0x0018, 0x9087)%N "FD" (PFloat 1000)]]);
            DataElement (0x0008, 0x0070)%N "LO" (PStr "General Electric") ].

(** An echo time of 0 at the top, and one of 30 in a shared group. *)
Definition echo_time_tree : dataset :=
  Dataset [ DataElement (0x0018, 0x0081)%N "DS" (PFloat 0);
            DataElement (0x5200, 0x9229)%N "SQ"
              (PSeq [Dataset [DataElement (0x0018, 0x0081)%N "DS" (PFloat 30)]]) ].

(** The slice count under the Philips tag only. *)
Definition philips_slices_tree : dataset :=
  Dataset [ DataElement (0x0008, 0x0070)%N "LO" (PStr "Philips Medical Systems");
            DataElement (0x2001, 0x1018)%N "SL" (PInt 24) ].

Definition repetition_time_tree (tr : pyvalue) : dataset :=
  Dataset [ DataElement (0x0008, 0x0070)%N "LO" (PStr "SIEMENS");
            DataElement (0x0018, 0x0080)%N "DS" tr ].

(** Two entries of the dictionary of pydicom. *)
Definition sample_uid_dictionary (uid : string) : option string :=
  if String.eqb uid "1.2.840.10008.5.1.4.1.1.4" then Some "MR Image Storage"
  else if String.eqb uid "1.2.840.10008.5.1.4.1.1.4.1"
       then Some "Enhanced MR Image Storage"
  else None.

Definition storage_tree (uid : string) : dataset :=
  Dataset [ DataElement (0x0008, 0x0016)%N "UI" (PUID uid);
            DataElement (0x0008, 0x0070)%N "LO" (PStr "Philips Medical Systems") ].

Definition empty_world : world := World (fun _ => None) [] (fun p => p).

(** The end of a line, kept by [readlines]. *)
Definition newline : string := String (ascii_of_nat 10) EmptyString.

Definition manufacturer_line : string :=
  "(0008,0070) LO [Philips Medical Systems]   #  24, 1 Manufacturer" ++ newline.

Definition slices_line_24 : string :=
  "(2001,102d) SS 24                            #   2, 1 StackNumberOfSlices" ++ newline.

(** A dcmdump that writes two lines, one of them with the marker. *)
Definition dump_of_24 (command : string) (fs : filesystem) : filesystem :=
  fun p =>
    if String.eqb p "/data/temp.txt"
    then Some (Text [manufacturer_line; slices_line_24])
    else fs p.

(** A resolution of paths that takes a run of slashes for one slash. *)
Fixpoint collapse_slashes (p : string) : string :=
  match p with
  | String c p' =>
      match p' with
      | String d _ =>
          if (Ascii.eqb c "/" && Ascii.eqb d "/")%bool then collapse_slashes p'
          else String c (collapse_slashes p')
      | EmptyString => String c EmptyString
      end
  | EmptyString => EmptyString
  end.

Definition slashes_world : world := World (fun _ => None) [] collapse_slashes.

(** The dump of [dump_of_24], seen under every spelling of its path. *)
Definition dump_of_24_slashes (command : string) (fs : filesystem) : filesystem :=
  fun p =>
    if String.eqb (collapse_slashes p) "/data/temp.txt"
    then Some (Text [manufacturer_line; slices_line_24])
    else fs p.

(** A dcmdump whose output cannot be read back. *)
Definition unreadable_dump (command : string) (fs : filesystem) : filesystem :=
  fun p => if String.eqb p "/data/temp.txt" then Some Unreadable else fs p.

(** ** The other extractors *)

(** What [value[0]] can be: a value, or an item of a sequence. *)
Inductive item : Type :=
| IValue (v : pyvalue)
| IDataset (d : dataset).

(** [value[0]] *)
Definition item0 (v : pyvalue) : outcome item :=
  match v with
  | PList (x :: _) => Ok (IValue x)
  | PStr (String c _) | PUID (String c _) => Ok (IValue (PStr (String c EmptyString)))
  | PSeq (d :: _) => Ok (IDataset d)
  | PList [] | PStr EmptyString | PUID EmptyString | PSeq [] => Raise IndexError
  | PNone | PInt _ | PFloat _ => Raise TypeError
  end.

(** [value == []]: a list, or a sequence (a list to the interpreter), that
    is empty. *)
Definition is_empty_list (v : pyvalue) : bool :=
  match v with
  | PList [] | PSeq [] => true
  | _ => false
  end.

Section OtherExtractors.

Variable read_file : string -> outcome dataset.
Variable builtin_repr : pyvalue -> string.
Variable uid_dictionary : string -> option string.

(** The interpreter's text for a dataset. *)
Variable dataset_str : dataset -> string.

(** [float(s)] for a string. *)
Variable float_of_str : string -> outcome float.

Definition str_item (i : item) : string :=
  match i with
  | IValue v => py_str builtin_repr uid_dictionary v
  | IDataset d => dataset_str d
  end.

(** [float(value)] *)
Definition py_float (v : pyvalue) : outcome float :=
  match v with
  | PInt z => float_of_Z z
  | PFloat f => Ok f
  | PStr s | PUID s => float_of_str s
  | PNone | PList _ | PSeq _ => Raise TypeError
  end.

Definition get_phase_encoding (path_to_dicom : string) : outcome pyvalue :=
  dataset <- read_file path_to_dicom ;;
  value <- walk dataset walker_callback (0x0018, 0x1312)%N true ;;
  if truthy value then
    first <- item0 value ;;
    Ok (PStr (str_item first))
  else if is_empty_list value then Ok PNone
  else Ok value.

Definition get_b_vectors (path_to_dicom : string) : outcome pyvalue :=
  dataset <- read_file path_to_dicom ;;
  walk dataset walker_callback (0x0018, 0x9089)%N true.

Definition get_b_values (path_to_dicom : string) : outcome pyvalue :=
  dataset <- read_file path_to_dicom ;;
  walk dataset walker_callback (0x0018, 0x9087)%N true.

Definition get_date_scan (path_to_dicom : string) : outcome pyvalue :=
  dataset <- read_file path_to_dicom ;;
  value <- walk dataset walker_callback (0x0008, 0x0022)%N false ;;
  if truthy value then Ok value else Ok (PStr "0").

Definition get_echo_time (path_to_dicom : string) : outcome pyvalue :=
  dataset <- read_file path_to_dicom ;;
  value <- walk dataset walker_callback (0x0018, 0x0081)%N false ;;
  if truthy value then Ok value else Ok (PInt (-1)).

Definition get_all_sop_instance_uids (path_to_dicom : string) : outcome pyvalue :=
  dataset <- read_file path_to_dicom ;;
  walk dataset walker_callback (0x0008, 0x1155)%N true.

Definition get_raw_data_run_number (path_to_dicom : string) : outcome pyvalue :=
  dataset <- read_file path_to_dicom ;;
  value <- walk dataset walker_callback (0x0019, 0x10a2)%N false ;;
  if truthy value then Ok value else Ok (PInt (-1)).

Definition get_sequence_number (path_to_dicom : string) : outcome pyvalue :=
  dataset <- read_file path_to_dicom ;;
  value <- walk dataset walker_callback (0x0020, 0x0011)%N false ;;
  if truthy value then Ok value else Ok (PStr "0").

Definition get_nb_temporal_position (path_to_dicom : string) : outcome Z :=
  dataset <- read_file path_to_dicom ;;
  value <- walk dataset walker_callback (0x0020, 0x0105)%N false ;;
  if truthy value then py_int value else Ok 0.

Definition get_InstanceCreationTime (path_to_dicom : string) : outcome pyvalue :=
  dataset <- read_file path_to_dicom ;;
  value <- walk dataset walker_callback (0x0008, 0x0013)%N false ;;
  if truthy value then f <- py_float value ;; Ok (PFloat f)
  else Ok (PStr "unknown").

End OtherExtractors.

(** [de] is a field of the tree [ds], at any depth. *)
Inductive has_field : dataset -> data_element -> Prop :=
| has_field_here (ds : dataset) (de : data_element) :
    In de (elems ds) -> has_field ds de
| has_field_below (ds d : dataset) (de e : data_element) (items : list dataset) :
    In de (elems ds) -> value de = PSeq items -> In d items ->
    has_field d e -> has_field ds e.

(** [v] is a true value held by a field of [ds] that has the tag [t]. *)
Definition true_value_of (t : Tag) (ds : dataset) (v : pyvalue) : Prop :=
  truthy v = true /\ exists de, has_field ds de /\ tag de = t /\ value de = v.

(** What a result of [walk] may hold, whatever the dataset: in collect mode
    a list of true values of fields with the tag, otherwise [None] or one
    such value. *)
Definition sound_result (stack_values : bool) (t : Tag) (ds : dataset)
  (v : pyvalue) : Prop :=
  if stack_values
  then exists l, v = PList l /\ Forall (true_value_of t ds) l
  else v = PNone \/ true_value_of t ds v.

(** The first value of a list, [default] when it is empty. *)
Definition first_or (default : pyvalue) (l : list pyvalue) : pyvalue :=
  match l with
  | v :: _ => v
  | [] => default
  end.

Definition is_string (v : pyvalue) : bool :=
  match v with
  | PStr _ | PUID _ => true
  | _ => false
  end.

(** The command line given to the shell, and the files it leaves. *)
Definition dump_command (path_to_dicom : string) : string :=
  ("dcmdump " ++ path_to_dicom ++ " > " ++ temporary_text_file_of path_to_dicom)%string.

Definition dumped_files (os_system : string -> filesystem -> filesystem)
  (path_to_dicom : string) (w : world) : filesystem :=
  os_system (dump_command path_to_dicom) (files w).

Definition no_slices_warning : string := "WARNING: no 'NumberOfSlicesMR' field".

(** ** More definitions used by the statements, more samples *)

Definition phase_encoding_tree : dataset :=
  Dataset [ DataElement (0x0018, 0x1312)%N "CS" (PStr "ROW") ].

(** What the text returned for the string [s] owes: the length of [s], and
    no space. *)
Definition clean_text_of (s : string) (r : outcome string) : Prop :=
  exists t, r = Ok t /\ String.length t = String.length s /\ str_contains " " t = false.

Definition two_manufacturers_tree : dataset :=
  Dataset [ DataElement (0x0008, 0x0070)%N "LO" (PList [PStr "GE"; PStr "Philips"]) ].

Definition temporal_positions_tree : dataset :=
  Dataset [ DataElement (0x0020, 0x0105)%N "IS" (PStr "120") ].

(** A shell that empties the file it redirects into, here the input. *)
Definition dump_over_input (command : string) (fs : filesystem) : filesystem :=
  fun p => if String.eqb p "/data/temp.txt" then Some (Text []) else fs p.

Definition world_with_input : world :=
  World (fun p => if String.eqb p "/data/temp.txt"
                  then Some (Text ["DICM"]) else None) [] (fun p => p).

(** An echo time of 30 at the top level, and one of 5 in an item of the
    referenced-image sequence, whose tag is smaller. *)
Definition nested_first_tree : dataset :=
  Dataset [ DataElement (0x0018, 0x0081)%N "DS" (PFloat 30);
            DataElement (0x0008, 0x1140)%N "SQ"
              (PSeq [Dataset [DataElement (0x0018, 0x0081)%N "DS" (PFloat 5)]]) ].

(** * Properties *)

(** ** Tags and sorting *)

Lemma tag_eqb_eq (a b : Tag) : tag_eqb a b = true <-> a = b.
Proof.
  destruct a as [g e], b as [g' e']; unfold tag_eqb; simpl.
  rewrite andb_true_iff, !N.eqb_eq.
  split; [intros [-> ->]; reflexivity | intros H; inversion H; auto].
Qed.

Lemma tag_eqb_refl (a : Tag) : tag_eqb a a = true.
Proof. apply tag_eqb_eq; reflexivity. Qed.

Lemma tag_eqb_neq (a b : Tag) : tag_eqb a b = false <-> a <> b.
Proof.
  rewrite <- tag_eqb_eq. destruct (tag_eqb a b); split; congruence.
Qed.

Lemma tag_eqb_sym (a b : Tag) : tag_eqb a b = tag_eqb b a.
Proof.
  destruct (tag_eqb a b) eqn:E.
  - apply tag_eqb_eq in E; subst; symmetry; apply tag_eqb_refl.
  - destruct (tag_eqb b a) eqn:E'; [|reflexivity].
    apply tag_eqb_eq in E'; subst. rewrite tag_eqb_refl in E; discriminate.
Qed.

(** The order of the pairs is the order of the integers pydicom compares,
    as long as the element number is 16-bit. *)
Lemma tag_ltb_int (a b : Tag) :
  (snd a < 65536)%N -> (snd b < 65536)%N ->
  tag_ltb a b = N.ltb (tag_int a) (tag_int b).
Proof.
  destruct a as [g e], b as [g' e']; unfold tag_ltb, tag_int; simpl; intros.
  destruct (N.ltb_spec g g'), (N.eqb_spec g g'), (N.ltb_spec e e'),
    (N.ltb_spec (g * 65536 + e) (g' * 65536 + e')); simpl; try reflexivity; lia.
Qed.

Lemma tag_leb_total (a b : Tag) : tag_leb a b = false -> tag_leb b a = true.
Proof.
  destruct a as [g e], b as [g' e']; unfold tag_leb, tag_ltb; simpl.
  destruct (N.ltb_spec g g'), (N.ltb_spec g' g), (N.eqb_spec g g'),
    (N.eqb_spec g' g), (N.ltb_spec e e'), (N.ltb_spec e' e);
    simpl; intros; try reflexivity; try discriminate; lia.
Qed.

Lemma tag_leb_trans (a b c : Tag) :
  tag_leb a b = true -> tag_leb b c = true -> tag_leb a c = true.
Proof.
  destruct a as [g e], b as [g' e'], c as [g'' e'']; unfold tag_leb, tag_ltb; simpl.
  destruct (N.ltb_spec g g'), (N.ltb_spec g' g), (N.eqb_spec g' g),
    (N.ltb_spec e' e), (N.ltb_spec g'' g'), (N.eqb_spec g'' g'),
    (N.ltb_spec e'' e'), (N.ltb_spec g'' g), (N.eqb_spec g'' g),
    (N.ltb_spec e'' e);
    simpl; intros; try reflexivity; try discriminate; lia.
Qed.

Lemma tag_leb_antisym (a b : Tag) :
  tag_leb a b = true -> tag_leb b a = true -> a = b.
Proof.
  destruct a as [g e], b as [g' e']; unfold tag_leb, tag_ltb; simpl.
  destruct (N.ltb_spec g g'), (N.ltb_spec g' g), (N.eqb_spec g g'),
    (N.eqb_spec g' g), (N.ltb_spec e e'), (N.ltb_spec e' e);
    simpl; intros; try discriminate; try (f_equal; lia).
Qed.

Section SortBy.

Context {A : Type} (key : A -> Tag).

Lemma insert_by_perm (x : A) (l : list A) :
  Permutation (x :: l) (insert_by key x l).
Proof.
  induction l as [|y r IH]; simpl; [reflexivity|].
  destruct (tag_leb (key x) (key y)); [reflexivity|].
  rewrite perm_swap. constructor. exact IH.
Qed.

Lemma sort_by_perm (l : list A) : Permutation l (sort_by key l).
Proof.
  induction l as [|x r IH]; simpl; [constructor|].
  rewrite <- insert_by_perm. constructor. exact IH.
Qed.

Lemma insert_by_sorted (x : A) (l : list A) :
  StronglySorted (fun a b => tag_le (key a) (key b)) l ->
  StronglySorted (fun a b => tag_le (key a) (key b)) (insert_by key x l).
Proof.
  induction 1 as [|y r Hs IH Hy]; simpl.
  - constructor; constructor.
  - destruct (tag_leb (key x) (key y)) eqn:E.
    + constructor; [constructor; assumption|].
      constructor; [exact E|].
      eapply Forall_impl; [|exact Hy].
      intros z Hz. unfold tag_le in *. eapply tag_leb_trans; eassumption.
    + constructor; [exact IH|].
      eapply Permutation_Forall; [apply insert_by_perm|].
      constructor; [|exact Hy].
      apply tag_leb_total; exact E.
Qed.

Lemma sort_by_sorted (l : list A) :
  StronglySorted (fun a b => tag_le (key a) (key b)) (sort_by key l).
Proof.
  induction l as [|x r IH]; simpl; [constructor|].
  apply insert_by_sorted; exact IH.
Qed.

Lemma sort_by_In (x : A) (l : list A) : In x (sort_by key l) <-> In x l.
Proof.
  split; apply Permutation_in; [symmetry|]; apply sort_by_perm.
Qed.

End SortBy.

(** Sorting commutes with a map that keeps the keys. *)
Lemma insert_by_map {A B : Type} (g : A -> B) (key : B -> Tag) (x : A) (l : list A) :
  insert_by key (g x) (map g l) = map g (insert_by (fun a => key (g a)) x l).
Proof.
  induction l as [|y r IH]; simpl; [reflexivity|].
  destruct (tag_leb (key (g x)) (key (g y))); simpl; [reflexivity|].
  rewrite IH; reflexivity.
Qed.

Lemma sort_by_map {A B : Type} (g : A -> B) (key : B -> Tag) (l : list A) :
  sort_by key (map g l) = map g (sort_by (fun a => key (g a)) l).
Proof.
  induction l as [|x r IH]; simpl; [reflexivity|].
  rewrite IH. apply insert_by_map.
Qed.

(** [sorted(dataset.keys())] lists the tags of the elements taken by
    increasing tag. *)
Lemma sorted_keys (ds : dataset) :
  sorted (keys ds) = map tag (sort_by tag (elems ds)).
Proof. exact (sort_by_map tag (fun t => t) (elems ds)). Qed.

Lemma sorted_is_sorted (l : list Tag) : StronglySorted tag_le (sorted l).
Proof. apply (sort_by_sorted (fun t => t)). Qed.

Lemma sorted_permutation (l : list Tag) : Permutation l (sorted l).
Proof. apply sort_by_perm. Qed.

(** ** The recursion of walk *)

Lemma list_max_In (l : list nat) (n : nat) : In n l -> (n <= list_max l)%nat.
Proof.
  intros H. pose proof (proj1 (list_max_le l (list_max l)) (Nat.le_refl _)) as F.
  rewrite Forall_forall in F. apply F; exact H.
Qed.

Lemma depth_child (ds d : dataset) : child ds d -> (depth d < depth ds)%nat.
Proof.
  intros (de & items & Hde & Hv & Hd).
  destruct ds as [l]; simpl in *.
  assert (depth_element de <= list_max (map depth_element l))%nat as H1
    by (apply list_max_In, in_map; exact Hde).
  destruct de as [t vr v]; simpl in *; subst v; simpl in H1.
  assert (S (depth d) <= list_max (map (fun d => S (depth d)) items))%nat as H2
    by (apply list_max_In; apply (in_map (fun d => S (depth d))); exact Hd).
  lia.
Qed.

Lemma getitem_In (ds : dataset) (t : Tag) (de : data_element) :
  getitem ds t = Ok de -> In de (elems ds) /\ tag de = t.
Proof.
  unfold getitem. destruct (find _ _) eqn:F; [|discriminate].
  intros H; inversion H; subst. apply find_some in F.
  rewrite tag_eqb_eq in F. exact F.
Qed.

Lemma iter_datasets_items (v : pyvalue) (items : list dataset) :
  iter_datasets v = Ok items -> v = PSeq items \/ items = [].
Proof.
  destruct v as [| | |s|l|l'|s]; simpl; try discriminate.
  - destruct (String.eqb s ""); [|discriminate]. intros H; inversion H; auto.
  - destruct l; [|discriminate]. intros H; inversion H; auto.
  - intros H; inversion H; auto.
  - destruct (String.eqb s ""); [|discriminate]. intros H; inversion H; auto.
Qed.

Section WalkExt.

Variables rec1 rec2 : dataset -> outcome pyvalue.
Variable callback : data_element -> Tag -> pyvalue.
Variable _tag : Tag.
Variable stack_values : bool.

Lemma walk_sequence_ext (sequence : list dataset) (out_list : list pyvalue) :
  (forall d, In d sequence -> rec1 d = rec2 d) ->
  walk_sequence rec1 stack_values sequence out_list
  = walk_sequence rec2 stack_values sequence out_list.
Proof.
  revert out_list. induction sequence as [|d more IH]; intros out_list H; simpl.
  - reflexivity.
  - rewrite (H d (or_introl eq_refl)).
    destruct (rec2 d) as [out|e]; simpl; [|reflexivity].
    destruct (truthy out); [destruct stack_values|].
    + destruct (extend out_list out) as [l|e]; simpl; [|reflexivity].
      apply IH; intros; apply H; right; assumption.
    + reflexivity.
    + apply IH; intros; apply H; right; assumption.
Qed.

Lemma walk_element_ext (ds : dataset) (t : Tag) (out_list : list pyvalue) :
  (forall d, child ds d -> rec1 d = rec2 d) ->
  walk_element rec1 callback _tag stack_values ds t out_list
  = walk_element rec2 callback _tag stack_values ds t out_list.
Proof.
  intros H. unfold walk_element.
  destruct (getitem ds t) as [de|e] eqn:G; simpl; [|reflexivity].
  destruct (truthy (callback de _tag)); [reflexivity|].
  destruct (contains_tag ds t && String.eqb (VR de) "SQ")%bool; [|reflexivity].
  destruct (iter_datasets (value de)) as [items|e] eqn:I; simpl; [|reflexivity].
  apply walk_sequence_ext. intros d Hd. apply H.
  apply getitem_In in G. apply iter_datasets_items in I.
  destruct I as [I|I]; [|subst; contradiction].
  exists de, items; tauto.
Qed.

Lemma walk_tags_ext (ds : dataset) (taglist : list Tag) (out_list : list pyvalue) :
  (forall d, child ds d -> rec1 d = rec2 d) ->
  walk_tags rec1 callback _tag stack_values ds taglist out_list
  = walk_tags rec2 callback _tag stack_values ds taglist out_list.
Proof.
  intros H. revert out_list.
  induction taglist as [|t rest IH]; intros out_list; simpl; [reflexivity|].
  rewrite (walk_element_ext ds t out_list H).
  destruct (walk_element rec2 callback _tag stack_values ds t out_list) as [[l|v]|e];
    simpl; auto.
Qed.

End WalkExt.

(** Any stack deeper than the dataset gives the same result. *)
Lemma walk_fuel_stable (callback : data_element -> Tag -> pyvalue) (_tag : Tag)
  (stack_values : bool) (n : nat) :
  forall (m : nat) (ds : dataset),
    (depth ds < n)%nat -> (depth ds < m)%nat ->
    walk_fuel n ds callback _tag stack_values
    = walk_fuel m ds callback _tag stack_values.
Proof.
  induction n as [|n IH]; intros m ds Hn Hm; [lia|].
  destruct m as [|m]; [lia|]. simpl. unfold walk_body.
  apply walk_tags_ext. intros d Hd. apply depth_child in Hd.
  apply IH; lia.
Qed.

Lemma walk_fuel_enough (callback : data_element -> Tag -> pyvalue) (_tag : Tag)
  (stack_values : bool) (n : nat) (ds : dataset) :
  (depth ds < n)%nat ->
  walk_fuel n ds callback _tag stack_values = walk ds callback _tag stack_values.
Proof. intros H. unfold walk. apply walk_fuel_stable; lia. Qed.

(** The equation of [walk]: its body, with the recursive calls made by
    [walk] itself. *)
Lemma walk_unfold (ds : dataset) (callback : data_element -> Tag -> pyvalue)
  (_tag : Tag) (stack_values : bool) :
  walk ds callback _tag stack_values
  = walk_tags (fun sub => walk sub callback _tag stack_values)
      callback _tag stack_values ds (sorted (keys ds)) [].
Proof.
  unfold walk at 1. simpl. unfold walk_body.
  apply walk_tags_ext. intros d Hd. apply depth_child in Hd.
  apply walk_fuel_enough. exact Hd.
Qed.

(** Induction on datasets: a property that holds of a dataset whenever it
    holds of the items of its sequences holds of every dataset. *)
Lemma dataset_child_ind (P : dataset -> Prop) :
  (forall ds, (forall d, child ds d -> P d) -> P ds) -> forall ds, P ds.
Proof.
  intros step.
  assert (forall n ds, (depth ds < n)%nat -> P ds) as H.
  { induction n as [|n IH]; intros ds Hn; [lia|].
    apply step. intros d Hd. apply depth_child in Hd. apply IH; lia. }
  intros ds. apply (H (S (depth ds))). lia.
Qed.

(** ** What walk returns on a tagged tree *)

Lemma forall_dataset_elems (P : data_element -> bool) (Q : dataset -> bool)
  (ds : dataset) :
  forall_dataset P Q ds = true ->
  Q ds = true /\
  forall de, In de (elems ds) ->
    P de = true /\
    forall items d, value de = PSeq items -> In d items ->
      forall_dataset P Q d = true.
Proof.
  destruct ds as [l]; simpl. rewrite andb_true_iff, forallb_forall.
  intros [HQ Hl]; split; [exact HQ|]. intros de Hde.
  specialize (Hl de Hde). destruct de as [t vr v]; simpl in *.
  rewrite andb_true_iff in Hl. destruct Hl as [HP Hv]. split; [exact HP|].
  intros items d -> Hd. simpl in Hv. rewrite forallb_forall in Hv. auto.
Qed.

Lemma forall_dataset_child (P : data_element -> bool) (Q : dataset -> bool)
  (ds d : dataset) :
  forall_dataset P Q ds = true -> child ds d -> forall_dataset P Q d = true.
Proof.
  intros H (de & items & Hde & Hv & Hd).
  apply forall_dataset_elems in H. destruct H as [_ H].
  destruct (H de Hde) as [_ H']. eauto.
Qed.

Lemma unique_tags_find (l : list data_element) (de : data_element) :
  unique_tags (map tag l) = true -> In de l ->
  find (fun e => tag_eqb (tag e) (tag de)) l = Some de.
Proof.
  induction l as [|x r IH]; simpl; [contradiction|].
  rewrite andb_true_iff, negb_true_iff. intros [Hx Hr] [->|Hin].
  - rewrite tag_eqb_refl; reflexivity.
  - destruct (tag_eqb (tag x) (tag de)) eqn:E; [|auto].
    exfalso. rewrite <- not_true_iff_false in Hx. apply Hx.
    apply existsb_exists. exists (tag de). split; [apply in_map; exact Hin|exact E].
Qed.

Lemma getitem_unique (ds : dataset) (de : data_element) :
  unique_tags (keys ds) = true -> In de (elems ds) -> getitem ds (tag de) = Ok de.
Proof.
  intros U H. unfold getitem. rewrite (unique_tags_find _ _ U H). reflexivity.
Qed.

Lemma contains_tag_In (ds : dataset) (de : data_element) :
  In de (elems ds) -> contains_tag ds (tag de) = true.
Proof.
  intros H. apply existsb_exists. exists de. split; [exact H|apply tag_eqb_refl].
Qed.

Lemma filter_truthy_all (l : list pyvalue) : Forall (fun v => truthy v = true) (filter truthy l).
Proof.
  apply Forall_forall. intros v Hv. apply filter_In in Hv. tauto.
Qed.

Lemma truthy_walk_result (stack_values : bool) (l : list pyvalue) :
  Forall (fun v => truthy v = true) l ->
  truthy (walk_result stack_values l) = match l with [] => false | _ => true end.
Proof.
  intros H. destruct stack_values; simpl; [reflexivity|].
  destruct l as [|v r]; [reflexivity|]. inversion H; assumption.
Qed.

Lemma matches_sorted (t : Tag) (ds : dataset) :
  matches t ds = flat_map (matches_element t) (sort_by tag (elems ds)).
Proof.
  destruct ds as [l]; simpl.
  rewrite (sort_by_map (fun de => (tag de, matches_element t de)) fst l).
  simpl. rewrite flat_map_concat_map, map_map, <- flat_map_concat_map.
  reflexivity.
Qed.

Section WalkOnTree.

Variable rec : dataset -> outcome pyvalue.
Variable _tag : Tag.
Variable stack_values : bool.

Lemma walk_sequence_found (items : list dataset) :
  (forall d, In d items -> rec d = Ok (walk_result stack_values (found _tag d))) ->
  forall out_list,
    walk_sequence rec stack_values items out_list
    = Ok (after stack_values out_list (filter truthy (flat_map (matches _tag) items))).
Proof.
  induction items as [|d more IH]; intros H out_list; simpl.
  - unfold after. rewrite app_nil_r. destruct stack_values; reflexivity.
  - rewrite (H d (or_introl eq_refl)). simpl.
    rewrite truthy_walk_result by apply filter_truthy_all.
    rewrite filter_app. fold (found _tag d).
    assert (forall d', In d' more ->
              rec d' = Ok (walk_result stack_values (found _tag d'))) as H'
      by (intros; apply H; right; assumption).
    destruct (found _tag d) as [|v r] eqn:F.
    + simpl. apply IH; exact H'.
    + unfold walk_result, after. destruct stack_values; simpl.
      * rewrite (IH H'). unfold after. rewrite <- app_assoc. reflexivity.
      * reflexivity.
Qed.

Lemma walk_element_found (ds : dataset) (de : data_element) (out_list : list pyvalue) :
  unique_tags (keys ds) = true ->
  In de (elems ds) ->
  field_invariant de = true ->
  (forall d, child ds d -> rec d = Ok (walk_result stack_values (found _tag d))) ->
  walk_element rec walker_callback _tag stack_values ds (tag de) out_list
  = Ok (after stack_values out_list (filter truthy (matches_element _tag de))).
Proof.
  intros U Hin Inv Hrec. unfold walk_element.
  rewrite (getitem_unique ds de U Hin). simpl.
  rewrite (contains_tag_In ds de Hin). simpl.
  unfold walker_callback, field_invariant in *.
  destruct de as [tg vr v]; simpl in *.
  destruct (tag_eqb tg _tag) eqn:E.
  - (* the field has the tag *)
    simpl. destruct (truthy v) eqn:T.
    + unfold after. destruct stack_values; reflexivity.
    + destruct (String.eqb vr "SQ"); simpl.
      * destruct v; simpl in Inv; try discriminate.
        destruct items; [|discriminate T]. simpl.
        unfold after. rewrite app_nil_r. destruct stack_values; reflexivity.
      * unfold after. rewrite app_nil_r. destruct stack_values; reflexivity.
  - (* another field *)
    simpl. destruct (String.eqb vr "SQ"); simpl.
    + destruct v; simpl in Inv; try discriminate. simpl.
      apply walk_sequence_found. intros d Hd. apply Hrec.
      exists (DataElement tg vr (PSeq items)), items; auto.
    + destruct v; simpl in Inv; try discriminate; simpl;
        unfold after; rewrite app_nil_r; destruct stack_values; reflexivity.
Qed.

Lemma walk_tags_found (ds : dataset) (des : list data_element) :
  unique_tags (keys ds) = true ->
  (forall de, In de des -> In de (elems ds) /\ field_invariant de = true) ->
  (forall d, child ds d -> rec d = Ok (walk_result stack_values (found _tag d))) ->
  forall out_list,
    walk_tags rec walker_callback _tag stack_values ds (map tag des) out_list
    = Ok (finish stack_values
            (after stack_values out_list
               (filter truthy (flat_map (matches_element _tag) des)))).
Proof.
  intros U Hdes Hrec. induction des as [|de r IH]; intros out_list; simpl.
  - unfold after. rewrite app_nil_r. destruct stack_values; reflexivity.
  - destruct (Hdes de (or_introl eq_refl)) as [Hin Inv].
    rewrite (walk_element_found ds de out_list U Hin Inv Hrec). simpl.
    rewrite filter_app.
    assert (forall de', In de' r -> In de' (elems ds) /\ field_invariant de' = true)
      as Hr by (intros; apply Hdes; right; assumption).
    specialize (IH Hr).
    destruct (filter truthy (matches_element _tag de)) as [|v l].
    + unfold after at 1. simpl. destruct stack_values; simpl.
      * rewrite app_nil_r. apply IH.
      * apply IH.
    + unfold after at 1. destruct stack_values; simpl.
      * rewrite IH. unfold after. rewrite <- app_assoc. reflexivity.
      * reflexivity.
Qed.

End WalkOnTree.

(** On a tagged tree, [walk] returns the true entries of [matches]: all of
    them in collect mode, the first of them (or [None]) otherwise. *)
Lemma walk_found (_tag : Tag) (stack_values : bool) (ds : dataset) :
  tagged_tree ds = true ->
  walk ds walker_callback _tag stack_values
  = Ok (walk_result stack_values (found _tag ds)).
Proof.
  induction ds as [ds IH] using dataset_child_ind. intros WF.
  rewrite walk_unfold, sorted_keys.
  pose proof (forall_dataset_elems _ _ ds WF) as [U He].
  rewrite (walk_tags_found _ _tag stack_values ds (sort_by tag (elems ds)) U).
  - unfold found. rewrite matches_sorted.
    unfold after, finish, walk_result. destruct stack_values; simpl; [reflexivity|].
    destruct (filter truthy _); reflexivity.
  - intros de Hde. apply sort_by_In in Hde. split; [exact Hde|].
    apply He; exact Hde.
  - intros d Hd. apply IH; [exact Hd|].
    eapply forall_dataset_child; eassumption.
Qed.

(** ** Searching a tag the tree does not hold *)

Lemma getitem_key (ds : dataset) (t : Tag) :
  In t (keys ds) -> exists de, getitem ds t = Ok de.
Proof.
  unfold keys, getitem. intros H. apply in_map_iff in H. destruct H as (de & E & H).
  destruct (find _ _) as [x|] eqn:F; [eauto|].
  exfalso. apply (find_none _ _ F) in H. subst t. rewrite tag_eqb_refl in H. discriminate.
Qed.

Section WalkAbsent.

Variable rec : dataset -> outcome pyvalue.
Variable _tag : Tag.
Variable stack_values : bool.

Lemma walk_sequence_absent (items : list dataset) (out_list : list pyvalue) :
  (forall d, In d items -> rec d = Ok (walk_result stack_values [])) ->
  walk_sequence rec stack_values items out_list = Ok (Next out_list).
Proof.
  induction items as [|d more IH]; intros H; simpl; [reflexivity|].
  rewrite (H d (or_introl eq_refl)). simpl.
  replace (truthy (walk_result stack_values [])) with false
    by (destruct stack_values; reflexivity).
  apply IH. intros; apply H; right; assumption.
Qed.

Lemma walk_element_absent (ds : dataset) (t : Tag) (out_list : list pyvalue) :
  fields_invariant ds = true ->
  tag_absent _tag ds = true ->
  In t (keys ds) ->
  (forall d, child ds d -> rec d = Ok (walk_result stack_values [])) ->
  walk_element rec walker_callback _tag stack_values ds t out_list = Ok (Next out_list).
Proof.
  intros Inv Abs Ht Hrec. unfold walk_element.
  destruct (getitem_key ds t Ht) as [de G]. rewrite G. simpl.
  apply getitem_In in G. destruct G as [Hin _].
  apply forall_dataset_elems in Inv. destruct Inv as [_ Inv].
  apply forall_dataset_elems in Abs. destruct Abs as [_ Abs].
  destruct (Inv de Hin) as [Inv' _]. destruct (Abs de Hin) as [Abs' _].
  unfold walker_callback. apply negb_true_iff in Abs'. rewrite Abs'. simpl.
  destruct (contains_tag ds t); simpl; [|reflexivity].
  unfold field_invariant in Inv'.
  destruct (String.eqb (VR de) "SQ"); [|reflexivity].
  destruct (value de) eqn:V; simpl in Inv'; try discriminate. simpl.
  apply walk_sequence_absent. intros d Hd. apply Hrec. exists de, items; auto.
Qed.

Lemma walk_tags_absent (ds : dataset) (taglist : list Tag) (out_list : list pyvalue) :
  fields_invariant ds = true ->
  tag_absent _tag ds = true ->
  incl taglist (keys ds) ->
  (forall d, child ds d -> rec d = Ok (walk_result stack_values [])) ->
  walk_tags rec walker_callback _tag stack_values ds taglist out_list
  = Ok (finish stack_values (Next out_list)).
Proof.
  intros Inv Abs Hincl Hrec. induction taglist as [|t rest IH]; simpl.
  - destruct stack_values; reflexivity.
  - rewrite walk_element_absent; auto.
    + simpl. apply IH. intros x Hx. apply Hincl. right; exact Hx.
    + apply Hincl. left; reflexivity.
Qed.

End WalkAbsent.

Lemma walk_absent (_tag : Tag) (stack_values : bool) (ds : dataset) :
  fields_invariant ds = true ->
  tag_absent _tag ds = true ->
  walk ds walker_callback _tag stack_values = Ok (walk_result stack_values []).
Proof.
  induction ds as [ds IH] using dataset_child_ind. intros Inv Abs.
  rewrite walk_unfold.
  rewrite (walk_tags_absent _ _tag stack_values ds (sorted (keys ds)) [] Inv Abs).
  - destruct stack_values; reflexivity.
  - intros t Ht. apply (Permutation_in t (Permutation_sym (sorted_permutation _))).
    exact Ht.
  - intros d Hd. apply IH; [exact Hd| |]; eapply forall_dataset_child; eassumption.
Qed.

(** C3. If no field of the tree, at any depth, has the target tag, the
    search returns [None] in first-match mode and the empty list in collect
    mode, and it raises nothing (the tree keeps the invariant of its
    fields). *)
Theorem walk_no_match (ds : dataset) (_tag : Tag) :
  fields_invariant ds = true ->
  tag_absent _tag ds = true ->
  walk ds walker_callback _tag false = Ok PNone /\
  walk ds walker_callback _tag true = Ok (PList []).
Proof.
  intros Inv Abs. split.
  - apply (walk_absent _tag false ds Inv Abs).
  - apply (walk_absent _tag true ds Inv Abs).
Qed.

Lemma walk_no_match_witness :
  fields_invariant manufacturer_tree = true /\
  tag_absent (0x0020, 0x1002)%N manufacturer_tree = true /\
  walk manufacturer_tree walker_callback (0x0020, 0x1002)%N false = Ok PNone /\
  walk manufacturer_tree walker_callback (0x0020, 0x1002)%N true = Ok (PList []).
Proof.
  split; [reflexivity|]. split; [reflexivity|].
  apply (walk_no_match manufacturer_tree (0x0020, 0x1002)%N); reflexivity.
Defined.

(** ** Fields with the tag and a value that is not true *)

(** C9. On a tagged tree, a field that has the target tag and a value that
    is not true (zero, empty string, empty list) is no match: first-match
    mode returns the first true entry met after it, or [None], never a
    false value; collect mode leaves the false values out of the list. *)
Theorem walk_skips_false_values (ds : dataset) (_tag : Tag) :
  tagged_tree ds = true ->
  walk ds walker_callback _tag false
  = Ok (first_or_none (filter truthy (matches _tag ds))) /\
  walk ds walker_callback _tag true
  = Ok (PList (filter truthy (matches _tag ds))) /\
  (forall v, walk ds walker_callback _tag false = Ok v ->
             v = PNone \/ truthy v = true) /\
  (forall l v, walk ds walker_callback _tag true = Ok (PList l) ->
               In v l -> truthy v = true).
Proof.
  intros WF.
  pose proof (walk_found _tag false ds WF) as H1.
  pose proof (walk_found _tag true ds WF) as H2.
  unfold walk_result, found in *.
  repeat split; try assumption.
  - intros v Hv. rewrite H1 in Hv. inversion Hv; subst.
    destruct (filter truthy (matches _tag ds)) as [|x r] eqn:F; [left; reflexivity|].
    right. simpl. assert (In x (filter truthy (matches _tag ds))) as Hx
      by (rewrite F; left; reflexivity).
    apply filter_In in Hx. tauto.
  - intros l v Hl Hv. rewrite H2 in Hl. inversion Hl; subst.
    apply filter_In in Hv. tauto.
Qed.

Lemma walk_skips_false_values_witness :
  tagged_tree b_value_tree = true /\
  walk b_value_tree walker_callback (0x0018, 0x9087)%N false
  = Ok (first_or_none (filter truthy (matches (0x0018, 0x9087)%N b_value_tree))) /\
  walk b_value_tree walker_callback (0x0018, 0x9087)%N true
  = Ok (PList (filter truthy (matches (0x0018, 0x9087)%N b_value_tree))) /\
  (forall v, walk b_value_tree walker_callback (0x0018, 0x9087)%N false = Ok v ->
             v = PNone \/ truthy v = true) /\
  (forall l v, walk b_value_tree walker_callback (0x0018, 0x9087)%N true = Ok (PList l) ->
               In v l -> truthy v = true).
Proof.
  split; [reflexivity|].
  apply (walk_skips_false_values b_value_tree (0x0018, 0x9087)%N); reflexivity.
Defined.

(** ** First-match mode *)

(** When the loop reaches a field that has the target tag and a true value,
    [walk] returns that value: neither the tags that follow nor any
    recursive call has a part in the result. *)
Lemma walk_tags_first_match (rec : dataset -> outcome pyvalue) (ds : dataset)
  (_tag t : Tag) (rest : list Tag) (out_list : list pyvalue) (de : data_element) :
  getitem ds t = Ok de ->
  tag de = _tag ->
  truthy (value de) = true ->
  walk_tags rec walker_callback _tag false ds (t :: rest) out_list = Ok (value de).
Proof.
  intros G E T. simpl. unfold walk_element. rewrite G. simpl.
  unfold walker_callback. rewrite E, tag_eqb_refl, T. reflexivity.
Qed.

(** C1, at a field with the target tag and the value 0.  The echo-time tag
    (0018,0081) is met first at the top of [echo_time_tree], with the value
    0; the search does not return it, goes on into the sequence that
    follows, and returns the 30 found there. *)
Theorem walk_first_match_zero :
  tagged_tree echo_time_tree = true /\
  sorted (keys echo_time_tree) = [(0x0018, 0x0081)%N; (0x5200, 0x9229)%N] /\
  getitem echo_time_tree (0x0018, 0x0081)%N
  = Ok (DataElement (0x0018, 0x0081)%N "DS" (PFloat 0)) /\
  walk echo_time_tree walker_callback (0x0018, 0x0081)%N false = Ok (PFloat 30).
Proof. repeat split; reflexivity. Qed.

(** ** Collect mode *)

(** C2, at a field with the target tag and the value 0.  Two fields of
    [b_value_tree] have the tag (0018,9087), with the values 0 and 1000;
    the list returned has the one entry 1000. *)
Theorem walk_collect_zero :
  tagged_tree b_value_tree = true /\
  matches (0x0018, 0x9087)%N b_value_tree = [PFloat 0; PFloat 1000] /\
  walk b_value_tree walker_callback (0x0018, 0x9087)%N true = Ok (PList [PFloat 1000]).
Proof. repeat split; reflexivity. Qed.

(** ** The extractors *)

(** In first-match mode [walk] returns [None] or a true value, whatever the
    dataset. *)
Lemma walk_sequence_return (rec : dataset -> outcome pyvalue)
  (items : list dataset) (out_list : list pyvalue) (v : pyvalue) :
  walk_sequence rec false items out_list = Ok (Return v) -> truthy v = true.
Proof.
  revert out_list. induction items as [|d more IH]; intros out_list; simpl.
  - discriminate.
  - destruct (rec d) as [out|e]; simpl; [|discriminate].
    destruct (truthy out) eqn:T; [|apply IH].
    intros H; inversion H; subst; exact T.
Qed.

Lemma walk_element_return (rec : dataset -> outcome pyvalue)
  (callback : data_element -> Tag -> pyvalue) (_tag : Tag) (ds : dataset)
  (t : Tag) (out_list : list pyvalue) (v : pyvalue) :
  walk_element rec callback _tag false ds t out_list = Ok (Return v) ->
  truthy v = true.
Proof.
  unfold walk_element. destruct (getitem ds t) as [de|e]; simpl; [|discriminate].
  destruct (truthy (callback de _tag)) eqn:T.
  - intros H; inversion H; subst; exact T.
  - destruct (contains_tag ds t && String.eqb (VR de) "SQ")%bool; [|discriminate].
    destruct (iter_datasets (value de)) as [items|e]; simpl; [|discriminate].
    apply walk_sequence_return.
Qed.

Lemma walk_tags_return (rec : dataset -> outcome pyvalue)
  (callback : data_element -> Tag -> pyvalue) (_tag : Tag) (ds : dataset)
  (taglist : list Tag) (out_list : list pyvalue) (v : pyvalue) :
  walk_tags rec callback _tag false ds taglist out_list = Ok v ->
  v = PNone \/ truthy v = true.
Proof.
  revert out_list. induction taglist as [|t rest IH]; intros out_list; simpl.
  - intros H; inversion H; auto.
  - destruct (walk_element rec callback _tag false ds t out_list) as [[l|out]|e] eqn:W;
      simpl; [apply IH| |discriminate].
    intros H; inversion H; subst. right. eapply walk_element_return; exact W.
Qed.

Lemma walk_first_truthy (ds : dataset) (callback : data_element -> Tag -> pyvalue)
  (_tag : Tag) (v : pyvalue) :
  walk ds callback _tag false = Ok v -> v = PNone \/ truthy v = true.
Proof. rewrite walk_unfold. apply walk_tags_return. Qed.

(** [needle in hay] holds exactly when [needle] occurs in [hay]. *)
Lemma prefix_append (a b : string) : String.prefix a b = true <-> exists c, b = (a ++ c)%string.
Proof.
  revert b. induction a as [|x a IH]; intros b; simpl.
  - destruct b; split; eauto.
  - destruct b as [|y b]; simpl.
    + split; [discriminate|intros [c H]; discriminate].
    + destruct (ascii_dec x y) as [->|N].
      * rewrite IH. split; intros [c H]; exists c; [subst; reflexivity|].
        inversion H; reflexivity.
      * split; [discriminate|]. intros [c H]. inversion H; subst; contradiction N; reflexivity.
Qed.

Lemma str_contains_occurs (needle hay : string) :
  str_contains needle hay = true
  <-> exists pre post, hay = (pre ++ needle ++ post)%string.
Proof.
  induction hay as [|c hay IH].
  - cbn [str_contains]. rewrite orb_false_r, prefix_append. split.
    + intros [post H]. exists EmptyString, post. exact H.
    + intros (pre & post & H). destruct pre; [eauto|discriminate].
  - cbn [str_contains]. rewrite orb_true_iff, IH, prefix_append. split.
    + intros [[post H]|(pre & post & H)].
      * exists EmptyString, post. exact H.
      * exists (String c pre), post. simpl. rewrite H. reflexivity.
    + intros (pre & post & H). destruct pre as [|x pre]; simpl in H.
      * left. eauto.
      * right. inversion H. eauto.
Qed.

Lemma str_replace_spaces (s : string) : str_replace s " " "_" = underscore_spaces s.
Proof.
  unfold str_replace. simpl (String.eqb " " ""). cbv iota.
  induction s as [|c s IH]; [reflexivity|].
  cbn [replace_from underscore_spaces String.prefix String.length Nat.sub].
  destruct (ascii_dec " " c) as [<-|N].
  - simpl. rewrite IH. destruct s; reflexivity.
  - destruct (Ascii.eqb_spec c " ") as [E|_]; [symmetry in E; contradiction|].
    rewrite IH. reflexivity.
Qed.

Lemma forall_dataset_weaken (P : data_element -> bool) (Q Q' : dataset -> bool) :
  (forall d, Q d = true -> Q' d = true) ->
  forall ds, forall_dataset P Q ds = true -> forall_dataset P Q' ds = true.
Proof.
  intros HQ ds. induction ds as [ds IH] using dataset_child_ind. intros H.
  pose proof (forall_dataset_elems P Q ds H) as [HQds He].
  destruct ds as [l]. simpl. rewrite andb_true_iff, forallb_forall.
  split; [apply HQ; exact HQds|]. intros de Hde.
  destruct (He de Hde) as [HP Hch]. destruct de as [t vr v]. simpl.
  rewrite HP. simpl. destruct v; try reflexivity. simpl.
  rewrite forallb_forall. intros d Hd. apply IH.
  - exists (DataElement t vr (PSeq items)), items. auto.
  - eapply Hch; [reflexivity|exact Hd].
Qed.

Lemma tagged_tree_fields (ds : dataset) :
  tagged_tree ds = true -> fields_invariant ds = true.
Proof. apply forall_dataset_weaken. reflexivity. Qed.

Ltac run_extractor Hread Hwalk :=
  rewrite Hread; cbn [bind]; rewrite Hwalk; cbn [bind].

(** C4. [get_nb_slices] searches the tag (0020,1002) first; only when that
    search finds nothing does it search the tag (2001,1018); when that
    finds nothing either, it returns 0.  On a tree without the first tag
    whose first entry for the second tag is an integer such as 24, it
    returns that integer. *)
Theorem get_nb_slices_fallback (read_file : string -> outcome dataset)
  (path_to_dicom : string) (ds : dataset) :
  read_file path_to_dicom = Ok ds ->
  (forall v, walk ds walker_callback (0x0020, 0x1002)%N false = Ok v ->
             truthy v = true ->
             get_nb_slices read_file path_to_dicom = py_int v) /\
  (forall v2, walk ds walker_callback (0x0020, 0x1002)%N false = Ok PNone ->
              walk ds walker_callback (0x2001, 0x1018)%N false = Ok v2 ->
              truthy v2 = true ->
              get_nb_slices read_file path_to_dicom = py_int v2) /\
  (walk ds walker_callback (0x0020, 0x1002)%N false = Ok PNone ->
   walk ds walker_callback (0x2001, 0x1018)%N false = Ok PNone ->
   get_nb_slices read_file path_to_dicom = Ok 0) /\
  (forall n, tagged_tree ds = true ->
             tag_absent (0x0020, 0x1002)%N ds = true ->
             first_or_none (found (0x2001, 0x1018)%N ds) = PInt n ->
             get_nb_slices read_file path_to_dicom = Ok n).
Proof.
  intros Hread. unfold get_nb_slices. repeat split.
  - intros v Hw T. run_extractor Hread Hw. rewrite T. reflexivity.
  - intros v2 Hw1 Hw2 T. run_extractor Hread Hw1. simpl.
    rewrite Hw2. cbn [bind]. rewrite T. reflexivity.
  - intros Hw1 Hw2. run_extractor Hread Hw1. simpl. rewrite Hw2. reflexivity.
  - intros n WF Abs Hn.
    pose proof (walk_absent _ false ds (tagged_tree_fields ds WF) Abs) as Hw1.
    pose proof (walk_found (0x2001, 0x1018)%N false ds WF) as Hw2.
    simpl in Hw1, Hw2. rewrite Hn in Hw2.
    run_extractor Hread Hw1. simpl. rewrite Hw2. cbn [bind].
    destruct (walk_first_truthy _ _ _ _ Hw2) as [E|T]; [discriminate|].
    rewrite T. reflexivity.
Qed.

Lemma get_nb_slices_fallback_witness :
  (fun _ => Ok philips_slices_tree) "im.dcm" = Ok philips_slices_tree /\
  tagged_tree philips_slices_tree = true /\
  tag_absent (0x0020, 0x1002)%N philips_slices_tree = true /\
  first_or_none (found (0x2001, 0x1018)%N philips_slices_tree) = PInt 24 /\
  get_nb_slices (fun _ => Ok philips_slices_tree) "im.dcm" = Ok 24.
Proof.
  repeat (split; [reflexivity|]).
  apply (get_nb_slices_fallback (fun _ => Ok philips_slices_tree) "im.dcm"
           philips_slices_tree eq_refl); reflexivity.
Defined.

(** C6. When the search for the repetition time (0018,0080) finds a
    number, [get_repetition_time] returns its text: of the number times
    1000.0 when it is below 1000, of the number itself otherwise.  So 500
    gives the text of the float 500000.0, and 2000 gives "2000". *)
Theorem get_repetition_time_ms (read_file : string -> outcome dataset)
  (builtin_repr : pyvalue -> string) (uid_dictionary : string -> option string)
  (path_to_dicom : string)
  (ds : dataset) (v : pyvalue) :
  read_file path_to_dicom = Ok ds ->
  walk ds walker_callback (0x0018, 0x0080)%N false = Ok v ->
  (forall z f, v = PInt z -> z < 1000 -> float_of_Z z = Ok f ->
     get_repetition_time read_file builtin_repr uid_dictionary path_to_dicom
     = Ok (Some (builtin_repr (PFloat (f * 1000)%float)))) /\
  (forall z, v = PInt z -> 1000 <= z ->
     get_repetition_time read_file builtin_repr uid_dictionary path_to_dicom
     = Ok (Some (str_of_Z z))) /\
  (forall f, v = PFloat f -> PrimFloat.ltb f 1000 = true ->
     get_repetition_time read_file builtin_repr uid_dictionary path_to_dicom
     = Ok (Some (builtin_repr (PFloat (f * 1000)%float)))) /\
  (forall f, v = PFloat f -> PrimFloat.ltb f 1000 = false ->
     get_repetition_time read_file builtin_repr uid_dictionary path_to_dicom
     = Ok (Some (builtin_repr (PFloat f)))) /\
  (v = PInt 500 \/ v = PFloat 500 ->
     get_repetition_time read_file builtin_repr uid_dictionary path_to_dicom
     = Ok (Some (builtin_repr (PFloat 500000)))) /\
  (v = PInt 2000 ->
     get_repetition_time read_file builtin_repr uid_dictionary path_to_dicom = Ok (Some "2000")).
Proof.
  intros Hread Hw. unfold get_repetition_time. run_extractor Hread Hw.
  destruct (walk_first_truthy _ _ _ _ Hw) as [E|T].
  { subst v. repeat split; intros;
      repeat match goal with H : _ \/ _ |- _ => destruct H end; discriminate. }
  rewrite T. repeat split.
  - intros z f -> Hz Hf. simpl. rewrite Hf.
    destruct (Z.ltb_spec z 1000); [reflexivity|lia].
  - intros z -> Hz. simpl.
    destruct (Z.ltb_spec z 1000); [lia|reflexivity].
  - intros f -> Hf. simpl. rewrite Hf. reflexivity.
  - intros f -> Hf. simpl. rewrite Hf. reflexivity.
  - intros [->| ->]; reflexivity.
  - intros ->. reflexivity.
Qed.

Lemma get_repetition_time_ms_witness :
  (fun _ => Ok (repetition_time_tree (PInt 500))) "im.dcm"
  = Ok (repetition_time_tree (PInt 500)) /\
  walk (repetition_time_tree (PInt 500)) walker_callback (0x0018, 0x0080)%N false
  = Ok (PInt 500) /\
  get_repetition_time (fun _ => Ok (repetition_time_tree (PInt 500)))
    (fun _ => "500000.0") (fun _ => None) "im.dcm"
  = Ok (Some "500000.0").
Proof.
  split; [reflexivity|]. split; [reflexivity|].
  apply (get_repetition_time_ms (fun _ => Ok (repetition_time_tree (PInt 500)))
           (fun _ => "500000.0") (fun _ => None) "im.dcm"
           (repetition_time_tree (PInt 500))
           (PInt 500) eq_refl eq_refl).
  left; reflexivity.
Defined.

(** C7. [get_sop_storage_type] returns whether "Enhanced" occurs in the
    text of the value found for the tag (0008,0016), and [False] when
    nothing is found.  The text of an identifier is its name in the
    dictionary of pydicom when it has one, the identifier itself otherwise.
    So the value "1.2.840.10008.5.1.4.1.1.4.1 (EnhancedMRImageStorage)",
    which the dictionary does not hold, gives [True];
    "1.2.840.10008.5.1.4.1.1.4", named "MR Image Storage", gives [False];
    and "1.2.840.10008.5.1.4.1.1.4.1", named "Enhanced MR Image Storage",
    gives [True]. *)
Theorem get_sop_storage_type_enhanced (read_file : string -> outcome dataset)
  (builtin_repr : pyvalue -> string) (uid_dictionary : string -> option string)
  (path_to_dicom : string) (ds : dataset) :
  read_file path_to_dicom = Ok ds ->
  let result := get_sop_storage_type read_file builtin_repr uid_dictionary path_to_dicom in
  let found_value := walk ds walker_callback (0x0008, 0x0016)%N false in
  (forall v, found_value = Ok v -> v <> PNone ->
     exists b, result = Ok b /\
       b = str_contains "Enhanced" (py_str builtin_repr uid_dictionary v) /\
       (b = true <-> exists pre post,
          py_str builtin_repr uid_dictionary v = (pre ++ "Enhanced" ++ post)%string)) /\
  (found_value = Ok PNone -> result = Ok false) /\
  (forall uid name, found_value = Ok (PUID uid) -> uid_dictionary uid = Some name ->
     result = Ok (str_contains "Enhanced" name)) /\
  (forall uid, found_value = Ok (PUID uid) -> uid_dictionary uid = None ->
     result = Ok (str_contains "Enhanced" uid)) /\
  (found_value = Ok (PStr "1.2.840.10008.5.1.4.1.1.4.1 (EnhancedMRImageStorage)") ->
     result = Ok true) /\
  (found_value = Ok (PUID "1.2.840.10008.5.1.4.1.1.4.1 (EnhancedMRImageStorage)") ->
   uid_dictionary "1.2.840.10008.5.1.4.1.1.4.1 (EnhancedMRImageStorage)" = None ->
     result = Ok true) /\
  (found_value = Ok (PStr "1.2.840.10008.5.1.4.1.1.4") -> result = Ok false) /\
  (found_value = Ok (PUID "1.2.840.10008.5.1.4.1.1.4") ->
   uid_dictionary "1.2.840.10008.5.1.4.1.1.4" = Some "MR Image Storage" ->
     result = Ok false) /\
  (found_value = Ok (PUID "1.2.840.10008.5.1.4.1.1.4.1") ->
   uid_dictionary "1.2.840.10008.5.1.4.1.1.4.1" = Some "Enhanced MR Image Storage" ->
     result = Ok true).
Proof.
  intros Hread result found_value. subst result found_value.
  assert (forall v, walk ds walker_callback (0x0008, 0x0016)%N false = Ok v ->
            v <> PNone ->
            get_sop_storage_type read_file builtin_repr uid_dictionary path_to_dicom
            = Ok (str_contains "Enhanced" (py_str builtin_repr uid_dictionary v))) as G.
  { intros v Hw Hv. unfold get_sop_storage_type. run_extractor Hread Hw.
    destruct (walk_first_truthy _ _ _ _ Hw) as [E|T]; [contradiction|].
    rewrite T. destruct (str_contains _ _); reflexivity. }
  split.
  { intros v Hw Hv. eexists. split; [apply (G v Hw Hv)|].
    split; [reflexivity|apply str_contains_occurs]. }
  split.
  { intros Hw. unfold get_sop_storage_type. run_extractor Hread Hw. reflexivity. }
  split.
  { intros uid name Hw D. rewrite (G _ Hw) by discriminate.
    cbn [py_str]. unfold uid_text. rewrite D. reflexivity. }
  split.
  { intros uid Hw D. rewrite (G _ Hw) by discriminate.
    cbn [py_str]. unfold uid_text. rewrite D. reflexivity. }
  split; [intros Hw; rewrite (G _ Hw) by discriminate; reflexivity|].
  split.
  { intros Hw D. rewrite (G _ Hw) by discriminate.
    cbn [py_str]. unfold uid_text. rewrite D. reflexivity. }
  split; [intros Hw; rewrite (G _ Hw) by discriminate; reflexivity|].
  split.
  { intros Hw D. rewrite (G _ Hw) by discriminate.
    cbn [py_str]. unfold uid_text. rewrite D. reflexivity. }
  intros Hw D. rewrite (G _ Hw) by discriminate.
  cbn [py_str]. unfold uid_text. rewrite D. reflexivity.
Qed.

Lemma get_sop_storage_type_enhanced_witness :
  (fun _ => Ok (storage_tree "1.2.840.10008.5.1.4.1.1.4.1")) "im.dcm"
  = Ok (storage_tree "1.2.840.10008.5.1.4.1.1.4.1") /\
  walk (storage_tree "1.2.840.10008.5.1.4.1.1.4.1") walker_callback
    (0x0008, 0x0016)%N false
  = Ok (PUID "1.2.840.10008.5.1.4.1.1.4.1") /\
  sample_uid_dictionary "1.2.840.10008.5.1.4.1.1.4.1" = Some "Enhanced MR Image Storage" /\
  get_sop_storage_type (fun _ => Ok (storage_tree "1.2.840.10008.5.1.4.1.1.4.1"))
    (fun _ => "") sample_uid_dictionary "im.dcm"
  = Ok true.
Proof.
  split; [reflexivity|]. split; [reflexivity|]. split; [reflexivity|].
  apply (get_sop_storage_type_enhanced
           (fun _ => Ok (storage_tree "1.2.840.10008.5.1.4.1.1.4.1"))
           (fun _ => "") sample_uid_dictionary "im.dcm"
           (storage_tree "1.2.840.10008.5.1.4.1.1.4.1") eq_refl);
    reflexivity.
Defined.

Ltac free_text_string Hread :=
  let s := fresh "s" in
  let Hw := fresh "Hw" in
  let E := fresh "E" in
  let T := fresh "T" in
  intros s Hw; run_extractor Hread Hw;
  destruct (walk_first_truthy _ _ _ _ Hw) as [E|T]; [discriminate|];
  rewrite T; cbn [replace_spaces]; rewrite str_replace_spaces; reflexivity.

Ltac free_text Hread :=
  split; [free_text_string Hread|];
  split; [free_text_string Hread|];
  let Hw := fresh "Hw" in
  intros Hw; run_extractor Hread Hw; reflexivity.

(** C8. The six free-text extractors (manufacturer, model, sequence name,
    SOP instance UID, protocol, series instance UID) return the string
    found with every space replaced by an underscore, and "unknown" when
    nothing is found; the manufacturer "General Electric" gives
    "General_Electric". *)
Theorem free_text_extractors (read_file : string -> outcome dataset)
  (path_to_dicom : string) (ds : dataset) :
  read_file path_to_dicom = Ok ds ->
  free_text_contract (get_manufacturer_name read_file) (0x0008, 0x0070)%N ds path_to_dicom /\
  free_text_contract (get_manufacturer_model_name read_file) (0x0008, 0x1090)%N ds path_to_dicom /\
  free_text_contract (get_sequence_name read_file) (0x0008, 0x103e)%N ds path_to_dicom /\
  free_text_contract (get_SOPInstanceUID read_file) (0x0008, 0x0018)%N ds path_to_dicom /\
  free_text_contract (get_protocol_name read_file) (0x0018, 0x1030)%N ds path_to_dicom /\
  free_text_contract (get_serie_serieInstanceUID read_file) (0x0020, 0x000e)%N ds path_to_dicom /\
  (walk ds walker_callback (0x0008, 0x0070)%N false = Ok (PStr "General Electric") ->
   get_manufacturer_name read_file path_to_dicom = Ok "General_Electric").
Proof.
  intros Hread.
  assert (free_text_contract (get_manufacturer_name read_file)
            (0x0008, 0x0070)%N ds path_to_dicom) as M
    by (unfold get_manufacturer_name; free_text Hread).
  split; [exact M|].
  split; [unfold get_manufacturer_model_name; free_text Hread|].
  split; [unfold get_sequence_name; free_text Hread|].
  split; [unfold get_SOPInstanceUID; free_text Hread|].
  split; [unfold get_protocol_name; free_text Hread|].
  split; [unfold get_serie_serieInstanceUID; free_text Hread|].
  intros Hw. apply (proj1 M) in Hw. exact Hw.
Qed.

Lemma free_text_extractors_witness :
  (fun _ => Ok manufacturer_tree) "im.dcm" = Ok manufacturer_tree /\
  walk manufacturer_tree walker_callback (0x0008, 0x0070)%N false
  = Ok (PStr "General Electric") /\
  get_manufacturer_name (fun _ => Ok manufacturer_tree) "im.dcm"
  = Ok "General_Electric".
Proof.
  split; [reflexivity|]. split; [reflexivity|].
  apply (free_text_extractors (fun _ => Ok manufacturer_tree) "im.dcm"
           manufacturer_tree eq_refl).
  reflexivity.
Defined.

(** ** The dump of dcmdump *)

Lemma str_replace_no_spaces (s : string) : str_replace s " " "" = without_spaces s.
Proof.
  unfold str_replace. simpl (String.eqb " " ""). cbv iota.
  induction s as [|c s IH]; [reflexivity|].
  cbn [replace_from without_spaces String.prefix String.length Nat.sub].
  destruct (ascii_dec " " c) as [<-|N].
  - simpl. rewrite IH. destruct s; reflexivity.
  - destruct (Ascii.eqb_spec c " ") as [E|_]; [symmetry in E; contradiction|].
    rewrite IH. reflexivity.
Qed.

Lemma append_empty (s : string) : (s ++ "")%string = s.
Proof. induction s as [|c s IH]; simpl; [|rewrite IH]; reflexivity. Qed.

Lemma append_assoc (a b c : string) : ((a ++ b) ++ c)%string = (a ++ b ++ c)%string.
Proof. induction a as [|x a IH]; simpl; [|rewrite IH]; reflexivity. Qed.

Lemma length_append (a b : string) :
  String.length (a ++ b) = (String.length a + String.length b)%nat.
Proof. induction a as [|x a IH]; simpl; [|rewrite IH]; reflexivity. Qed.

Lemma split_from_hash (cur s : string) :
  exists rest, split_from "#" O cur s = (cur ++ before_hash s)%string :: rest.
Proof.
  revert cur. induction s as [|c s IH]; intros cur.
  - exists []. simpl. rewrite append_empty. reflexivity.
  - cbn [split_from before_hash String.prefix String.length Nat.sub].
    destruct (ascii_dec "#" c) as [<-|N].
    + simpl. rewrite append_empty. destruct s; eexists; reflexivity.
    + destruct (Ascii.eqb_spec c "#") as [E|_]; [symmetry in E; contradiction|].
      destruct (IH (cur ++ String c "")%string) as [rest H].
      exists rest. rewrite H, append_assoc. reflexivity.
Qed.

Lemma split_first_piece (s : string) :
  (pieces <- str_split s "#" ;; first_item pieces) = Ok (before_hash s).
Proof.
  unfold str_split. simpl (String.eqb "#" ""). cbv iota.
  destruct (split_from_hash "" s) as [rest H]. rewrite H. reflexivity.
Qed.

Section PhilipsFacts.

Variable os_system : string -> filesystem -> filesystem.
Variable path_to_dicom : string.
Variable w : world.

Let temporary_text_file : string := temporary_text_file_of path_to_dicom.

Let dumped : filesystem :=
  os_system ("dcmdump " ++ path_to_dicom ++ " > " ++ temporary_text_file)%string
    (files w).

(** When dcmdump left no file, the result is 0 and there is still no file. *)
Lemma philips_no_dump :
  dumped temporary_text_file = None ->
  fst (get_number_of_slices_philips os_system path_to_dicom w) = 0 /\
  files (snd (get_number_of_slices_philips os_system path_to_dicom w))
    temporary_text_file = None.
Proof.
  intros H. unfold get_number_of_slices_philips, philips_try, io_bind, run_system,
    open_read. cbn [files]. fold temporary_text_file. fold dumped.
  rewrite H. simpl. auto.
Qed.

(** When the file cannot be read, the result is 0 and the file stays. *)
Lemma philips_unreadable_dump :
  dumped temporary_text_file = Some Unreadable ->
  fst (get_number_of_slices_philips os_system path_to_dicom w) = 0 /\
  files (snd (get_number_of_slices_philips os_system path_to_dicom w))
    temporary_text_file = Some Unreadable.
Proof.
  intros H. unfold get_number_of_slices_philips, philips_try, io_bind, run_system,
    open_read. cbn [files]. fold temporary_text_file. fold dumped.
  rewrite H. simpl. auto.
Qed.

(** When the file was read, it is removed, and the result is the count
    parsed from the marker line, or 0 when no line holds the marker. *)
Lemma philips_readable_dump (lines : list string) :
  dumped temporary_text_file = Some (Text lines) ->
  fst (get_number_of_slices_philips os_system path_to_dicom w)
  = match find_marker_line lines with
    | Some line => parsed_count line
    | None => 0
    end /\
  files (snd (get_number_of_slices_philips os_system path_to_dicom w))
    temporary_text_file = None.
Proof.
  intros H. unfold get_number_of_slices_philips, philips_try, io_bind, run_system,
    open_read, os_remove. cbn [files]. fold temporary_text_file. fold dumped.
  rewrite H. cbn [readlines io_ret files]. rewrite H.
  assert (remove_file (resolve w) dumped temporary_text_file temporary_text_file = None)
    as R by (unfold remove_file; rewrite String.eqb_refl; reflexivity).
  destruct (find_marker_line lines) as [line|]; [|split; [reflexivity|exact R]].
  unfold io_ret, io_lift, parsed_count. cbv beta iota.
  rewrite str_replace_no_spaces.
  pose proof (split_first_piece (without_spaces line)) as S.
  destruct (str_split (without_spaces line) "#") as [pieces|e]; [|discriminate S].
  cbn [bind] in S. cbv beta iota. rewrite S. cbv beta iota.
  destruct (int_of_str _); split; try reflexivity; exact R.
Qed.

End PhilipsFacts.

(** ** Decimal digits *)

Lemma digit_of_range (c : ascii) (d : Z) : digit_of c = Some d -> 0 <= d <= 9.
Proof.
  unfold digit_of.
  destruct (Nat.leb_spec 48 (nat_of_ascii c)), (Nat.leb_spec (nat_of_ascii c) 57);
    simpl; intros E; inversion E; lia.
Qed.

Lemma digit_plain (c : ascii) (d : Z) :
  digit_of c = Some d ->
  is_space c = false /\ Ascii.eqb c "-" = false /\ Ascii.eqb c "+" = false.
Proof.
  destruct c as [[] [] [] [] [] [] [] []]; vm_compute; intros H;
    try discriminate H; auto.
Qed.

Lemma digits_value_app (acc : Z) (a b : string) :
  digits_value acc (a ++ b)
  = match digits_value acc a with
    | Some v => digits_value v b
    | None => None
    end.
Proof.
  revert acc. induction a as [|c a IH]; intros acc; simpl; [reflexivity|].
  destruct (digit_of c); [apply IH|reflexivity].
Qed.

Lemma all_digits_app (a b : string) :
  all_digits (a ++ b) = (all_digits a && all_digits b)%bool.
Proof.
  induction a as [|c a IH]; simpl; [reflexivity|].
  destruct (digit_of c); [exact IH|reflexivity].
Qed.

Lemma lstrip_digits (s : string) : all_digits s = true -> lstrip s = s.
Proof.
  destruct s as [|c s]; simpl; [reflexivity|].
  destruct (digit_of c) as [d|] eqn:D; [|discriminate].
  destruct (digit_plain c d D) as (-> & _). reflexivity.
Qed.

Lemma rstrip_digits (s : string) : all_digits s = true -> rstrip s = s.
Proof.
  induction s as [|c s IH]; simpl; [reflexivity|].
  destruct (digit_of c) as [d|] eqn:D; [|discriminate].
  intros H. rewrite (IH H). destruct (digit_plain c d D) as (-> & _).
  destruct s; reflexivity.
Qed.

(** [int(s)] of a non-empty string of digits is the number they write. *)
Lemma int_of_str_digits (s : string) (n : Z) :
  all_digits s = true -> s <> EmptyString -> digits_value 0 s = Some n ->
  int_of_str s = Ok n.
Proof.
  intros A N V. unfold int_of_str.
  rewrite (lstrip_digits s A), (rstrip_digits s A).
  destruct s as [|c s]; [contradiction|].
  simpl in A. destruct (digit_of c) as [d|] eqn:D; [|discriminate].
  destruct (digit_plain c d D) as (_ & -> & ->).
  unfold unsigned_value. rewrite V. reflexivity.
Qed.

Lemma substring_skip (a b : string) (n : nat) :
  String.substring (String.length a) n (a ++ b) = String.substring 0 n b.
Proof. induction a as [|c a IH]; simpl; [reflexivity|exact IH]. Qed.

Lemma substring_all (s : string) : String.substring 0 (String.length s) s = s.
Proof. induction s as [|c s IH]; simpl; [|rewrite IH]; reflexivity. Qed.

(** [(a ++ b)[-n:]] is [b] when [b] has [n] characters. *)
Lemma str_last_append (a b : string) :
  str_last (String.length b) (a ++ b) = b.
Proof.
  unfold str_last. rewrite length_append.
  replace (String.length a + String.length b - String.length b)%nat
    with (String.length a) by lia.
  rewrite substring_skip. apply substring_all.
Qed.

Lemma last_two_split (s : string) :
  (2 <= String.length s)%nat ->
  exists s' a b, s = (s' ++ String a (String b EmptyString))%string.
Proof.
  induction s as [|c s IH]; simpl; [lia|]. intros H.
  destruct s as [|c1 [|c2 s2]].
  - simpl in H; lia.
  - exists EmptyString, c, c1. reflexivity.
  - destruct IH as (s' & a & b & E); [simpl; lia|].
    exists (String c s'), a, b. simpl. rewrite <- E. reflexivity.
Qed.

(** The last two characters of a string of at least two digits that
    writes [n] write [n mod 100]. *)
Lemma last_two_digits (x s : string) (n : Z) :
  all_digits s = true -> (2 <= String.length s)%nat ->
  digits_value 0 s = Some n ->
  int_of_str (str_last 2 (x ++ s)) = Ok (n mod 100).
Proof.
  intros A L V. destruct (last_two_split s L) as (s' & a & b & ->).
  rewrite <- append_assoc.
  change 2%nat with (String.length (String a (String b EmptyString))).
  rewrite str_last_append.
  rewrite all_digits_app, andb_true_iff in A. destruct A as [_ A].
  rewrite digits_value_app in V.
  destruct (digits_value 0 s') as [v|]; [|discriminate].
  cbn [digits_value all_digits] in A, V.
  destruct (digit_of a) as [da|] eqn:Da; [|discriminate].
  destruct (digit_of b) as [db|] eqn:Db; [|discriminate].
  apply digit_of_range in Da as Ra. apply digit_of_range in Db as Rb.
  assert (n = 10 * (10 * v + da) + db) as -> by congruence.
  apply int_of_str_digits.
  - cbn [all_digits]. rewrite Da, Db. reflexivity.
  - discriminate.
  - cbn [digits_value]. rewrite Da, Db. f_equal.
    apply Z.mod_unique_pos with (q := v); lia.
Qed.

Lemma string_of_uint_digits (d : Decimal.uint) :
  all_digits (NilEmpty.string_of_uint d) = true /\
  forall acc, digits_value acc (NilEmpty.string_of_uint d) = Some (uint_value acc d).
Proof.
  induction d as [|d [IH1 IH2]|d [IH1 IH2]|d [IH1 IH2]|d [IH1 IH2]|d [IH1 IH2]
                  |d [IH1 IH2]|d [IH1 IH2]|d [IH1 IH2]|d [IH1 IH2]|d [IH1 IH2]];
    simpl; (split; [try reflexivity; exact IH1|intros acc; try reflexivity; apply IH2]).
Qed.

Lemma of_uint_acc_value (d : Decimal.uint) (acc : positive) :
  Z.pos (Pos.of_uint_acc d acc) = uint_value (Z.pos acc) d.
Proof.
  revert acc. induction d; intros acc; cbn [Pos.of_uint_acc uint_value];
    try reflexivity; rewrite IHd; f_equal; lia.
Qed.

Lemma of_uint_value (d : Decimal.uint) : Z.of_N (Pos.of_uint d) = uint_value 0 d.
Proof.
  induction d; cbn [Pos.of_uint uint_value Z.of_N]; try reflexivity;
    try exact IHd; apply of_uint_acc_value.
Qed.

Lemma str_of_Z_digits (p : positive) :
  all_digits (str_of_Z (Z.pos p)) = true /\
  digits_value 0 (str_of_Z (Z.pos p)) = Some (Z.pos p).
Proof.
  unfold str_of_Z. simpl. unfold Pos.to_int. simpl.
  pose proof (DecimalPos.Unsigned.to_uint_nonnil p) as NN.
  pose proof (DecimalPos.Unsigned.of_to p) as OT.
  destruct (string_of_uint_digits (Pos.to_uint p)) as [A V].
  assert (NilZero.string_of_uint (Pos.to_uint p)
          = NilEmpty.string_of_uint (Pos.to_uint p)) as E
    by (destruct (Pos.to_uint p); [contradiction|reflexivity..]).
  rewrite E. split; [exact A|].
  rewrite V, <- of_uint_value, OT. reflexivity.
Qed.

Lemma short_digits_small (s : string) (n : Z) :
  (String.length s < 2)%nat -> digits_value 0 s = Some n -> n <= 9.
Proof.
  destruct s as [|c [|c' s]]; cbn [digits_value String.length]; intros L V.
  - inversion V; lia.
  - destruct (digit_of c) as [d|] eqn:D; [|discriminate].
    apply digit_of_range in D. inversion V; lia.
  - lia.
Qed.

(** [int(x + str(n))[-2:])] for [n] of at least two digits. *)
Lemma last_two_of_count (x : string) (n : Z) :
  10 <= n -> int_of_str (str_last 2 (x ++ str_of_Z n)) = Ok (n mod 100).
Proof.
  intros H. destruct n as [|p|p]; try lia.
  destruct (str_of_Z_digits p) as [A V].
  apply last_two_digits; [exact A| |exact V].
  destruct (Nat.le_gt_cases 2 (String.length (str_of_Z (Z.pos p)))) as [L|L];
    [exact L|].
  pose proof (short_digits_small _ _ L V). lia.
Qed.

Lemma str_of_Z_one_digit (n : Z) :
  0 <= n <= 9 ->
  exists d, str_of_Z n = String d EmptyString /\ digit_of d = Some n.
Proof.
  intros H. rewrite <- (Z2Nat.id n) by lia.
  assert (Z.to_nat n < 10)%nat as L by lia.
  remember (Z.to_nat n) as k eqn:K. clear K H n.
  do 10 (destruct k as [|k]; [eexists; split; reflexivity|]).
  lia.
Qed.

(** A character before a one-digit count that is no digit, sign or white
    space makes the two characters no number. *)
Lemma last_two_of_small_count (x : string) (c : ascii) (n : Z) :
  0 <= n <= 9 ->
  digit_of c = None -> is_space c = false ->
  Ascii.eqb c "-" = false -> Ascii.eqb c "+" = false ->
  int_of_str (str_last 2 (x ++ String c (str_of_Z n))) = Raise ValueError.
Proof.
  intros H D S M P. destruct (str_of_Z_one_digit n H) as (d & -> & Dd).
  change 2%nat with (String.length (String c (String d EmptyString))).
  rewrite str_last_append. unfold int_of_str.
  destruct (digit_plain d n Dd) as (Sd & _).
  cbn [lstrip]. rewrite S. cbn [rstrip]. rewrite Sd. rewrite M, P.
  cbn [unsigned_value digits_value]. rewrite D. reflexivity.
Qed.

(** C10. When a line of the dump holds the marker, the result is the
    integer read from the last two characters of what stands before the
    first '#' of that line once its spaces are removed (0 when they are no
    integer).  So a count from 10 to 99 is returned as it is, a count of
    100 or more comes back as its last two digits, and a count of one
    digit that follows a letter comes back as 0. *)
Theorem philips_last_two_characters (os_system : string -> filesystem -> filesystem)
  (path_to_dicom : string) (w : world) (lines : list string) (line : string) :
  os_system
    ("dcmdump " ++ path_to_dicom ++ " > " ++ temporary_text_file_of path_to_dicom)%string
    (files w) (temporary_text_file_of path_to_dicom) = Some (Text lines) ->
  find_marker_line lines = Some line ->
  let result := fst (get_number_of_slices_philips os_system path_to_dicom w) in
  result = parsed_count line /\
  (forall x n, before_hash (without_spaces line) = (x ++ str_of_Z n)%string ->
     (10 <= n <= 99 -> result = n) /\
     (100 <= n -> result = n mod 100 /\ result <> n)) /\
  (forall x c n, before_hash (without_spaces line) = (x ++ String c (str_of_Z n))%string ->
     1 <= n <= 9 ->
     digit_of c = None -> is_space c = false ->
     Ascii.eqb c "-" = false -> Ascii.eqb c "+" = false ->
     result = 0 /\ result <> n).
Proof.
  intros Hdump Hline result.
  assert (result = parsed_count line) as R.
  { unfold result.
    rewrite (proj1 (philips_readable_dump os_system path_to_dicom w lines Hdump)).
    rewrite Hline. reflexivity. }
  split; [exact R|]. split.
  - intros x n E.
    assert (10 <= n -> result = n mod 100) as M.
    { intros Hn. rewrite R. unfold parsed_count.
      rewrite E, (last_two_of_count x n Hn). reflexivity. }
    split.
    + intros Hn. rewrite M by lia. apply Z.mod_small; lia.
    + intros Hn. rewrite M by lia. split; [reflexivity|].
      pose proof (Z.mod_pos_bound n 100). lia.
  - intros x c n E Hn D S Mi Pl.
    assert (result = 0) as Z0.
    { rewrite R. unfold parsed_count.
      rewrite E, (last_two_of_small_count x c n); auto; lia. }
    split; [exact Z0|lia].
Qed.

Lemma philips_last_two_characters_witness :
  dump_of_24 "dcmdump /data/im.dcm > /data/temp.txt" (files empty_world) "/data/temp.txt"
  = Some (Text [manufacturer_line; slices_line_24]) /\
  find_marker_line [manufacturer_line; slices_line_24] = Some slices_line_24 /\
  fst (get_number_of_slices_philips dump_of_24 "/data/im.dcm" empty_world) = 24.
Proof.
  split; [reflexivity|]. split; [reflexivity|].
  apply (philips_last_two_characters dump_of_24 "/data/im.dcm" empty_world
           [manufacturer_line; slices_line_24] slices_line_24 eq_refl eq_refl).
Defined.

(** C5, when reading the dump raises.  The function returns 0, and the
    file that the call created is still there afterwards: [os.remove] was
    not reached. *)
Theorem philips_leaves_unreadable_dump :
  files empty_world "/data/temp.txt" = None /\
  fst (get_number_of_slices_philips unreadable_dump "/data/im.dcm" empty_world) = 0 /\
  files (snd (get_number_of_slices_philips unreadable_dump "/data/im.dcm" empty_world))
    "/data/temp.txt" = Some Unreadable.
Proof. repeat split; reflexivity. Qed.

(** * Further properties of the walker *)

(** ** What a result can hold, on any dataset *)

Lemma true_value_of_child (t : Tag) (ds d : dataset) (v : pyvalue) :
  child ds d -> true_value_of t d v -> true_value_of t ds v.
Proof.
  intros (de & items & Hde & Hv & Hd) (T & e & He & Et & Ev).
  split; [exact T|]. exists e. split; [|auto].
  eapply has_field_below; eassumption.
Qed.

Section WalkSound.

Variable rec : dataset -> outcome pyvalue.
Variable _tag : Tag.
Variable stack_values : bool.
Variable ds : dataset.

Hypothesis rec_sound :
  forall d, child ds d -> forall v, rec d = Ok v -> sound_result stack_values _tag d v.

Let sound_control (c : control) : Prop :=
  match c with
  | Next out_list => Forall (true_value_of _tag ds) out_list
  | Return v => stack_values = false /\ true_value_of _tag ds v
  end.

Lemma walk_sequence_sound (items : list dataset) :
  (forall d, In d items -> child ds d) ->
  forall out_list c,
    Forall (true_value_of _tag ds) out_list ->
    walk_sequence rec stack_values items out_list = Ok c ->
    sound_control c.
Proof.
  induction items as [|d more IH]; intros Hch out_list c Hacc; simpl.
  - intros H; inversion H; subst. exact Hacc.
  - assert (child ds d) as Cd by (apply Hch; left; reflexivity).
    assert (forall d', In d' more -> child ds d') as Hch'
      by (intros; apply Hch; right; assumption).
    destruct (rec d) as [out|e] eqn:R; simpl; [|discriminate].
    pose proof (rec_sound d Cd out R) as S.
    destruct (truthy out) eqn:T; [|apply IH; assumption].
    unfold sound_result in S. destruct stack_values.
    + destruct S as (l & -> & Hl). simpl. apply IH; [exact Hch'|].
      apply Forall_app. split; [exact Hacc|].
      eapply Forall_impl; [|exact Hl]. intros v. apply true_value_of_child; exact Cd.
    + intros H; inversion H; subst. split; [reflexivity|].
      destruct S as [->|S]; [discriminate T|].
      eapply true_value_of_child; eassumption.
Qed.

Lemma walk_element_sound (t : Tag) (out_list : list pyvalue) (c : control) :
  Forall (true_value_of _tag ds) out_list ->
  walk_element rec walker_callback _tag stack_values ds t out_list = Ok c ->
  sound_control c.
Proof.
  intros Hacc. unfold walk_element.
  destruct (getitem ds t) as [de|e] eqn:G; simpl; [|discriminate].
  apply getitem_In in G. destruct G as [Hin _].
  destruct (truthy (walker_callback de _tag)) eqn:T.
  - assert (true_value_of _tag ds (walker_callback de _tag)) as V.
    { split; [exact T|]. exists de. unfold walker_callback in *.
      destruct (tag_eqb (tag de) _tag) eqn:E; [|discriminate T].
      apply tag_eqb_eq in E. split; [apply has_field_here; exact Hin|auto]. }
    destruct stack_values; intros H; inversion H; subst; simpl.
    + apply Forall_app. split; [exact Hacc|]. constructor; [exact V|constructor].
    + split; [reflexivity|exact V].
  - destruct (contains_tag ds t && String.eqb (VR de) "SQ")%bool.
    + destruct (iter_datasets (value de)) as [items|e] eqn:I; simpl; [|discriminate].
      apply walk_sequence_sound; [|exact Hacc].
      intros d Hd. apply iter_datasets_items in I.
      destruct I as [I|I]; [|subst; contradiction].
      exists de, items. auto.
    + intros H; inversion H; subst. exact Hacc.
Qed.

Lemma walk_tags_sound (taglist : list Tag) :
  forall out_list v,
    Forall (true_value_of _tag ds) out_list ->
    walk_tags rec walker_callback _tag stack_values ds taglist out_list = Ok v ->
    sound_result stack_values _tag ds v.
Proof.
  induction taglist as [|t rest IH]; intros out_list v Hacc; simpl.
  - unfold sound_result. destruct stack_values; intros H; inversion H; subst; eauto.
  - destruct (walk_element rec walker_callback _tag stack_values ds t out_list)
      as [c|e] eqn:W; simpl; [|discriminate].
    pose proof (walk_element_sound t out_list c Hacc W) as S.
    destruct c as [out_list'|out]; simpl in S.
    + apply IH; exact S.
    + intros H; inversion H; subst. destruct S as [-> S]. right; exact S.
Qed.

End WalkSound.

Lemma walk_sound (_tag : Tag) (stack_values : bool) (ds : dataset) (v : pyvalue) :
  walk ds walker_callback _tag stack_values = Ok v ->
  sound_result stack_values _tag ds v.
Proof.
  revert v. induction ds as [ds IH] using dataset_child_ind. intros v.
  rewrite walk_unfold. apply walk_tags_sound; [|constructor].
  intros d Hd w. apply IH; exact Hd.
Qed.

(** X1. Whatever the dataset, well formed or not, a search in collect mode
    that returns gives a list, and every entry of the list is a true value
    held, at some depth, by a field that has the target tag. *)
Theorem walk_collect_sound (ds : dataset) (_tag : Tag) (v : pyvalue) :
  walk ds walker_callback _tag true = Ok v ->
  exists l, v = PList l /\
    forall x, In x l ->
      truthy x = true /\
      exists de, has_field ds de /\ tag de = _tag /\ value de = x.
Proof.
  intros H. apply walk_sound in H. destruct H as (l & -> & Hl).
  exists l. split; [reflexivity|]. rewrite Forall_forall in Hl. exact Hl.
Qed.

Lemma walk_collect_sound_witness :
  walk b_value_tree walker_callback (0x0018, 0x9087)%N true = Ok (PList [PFloat 1000]) /\
  exists l, PList [PFloat 1000] = PList l /\
    forall x, In x l ->
      truthy x = true /\
      exists de, has_field b_value_tree de /\ tag de = (0x0018, 0x9087)%N /\ value de = x.
Proof.
  split; [reflexivity|].
  apply (walk_collect_sound b_value_tree (0x0018, 0x9087)%N). reflexivity.
Defined.

(** X2. Whatever the dataset, a search in first-match mode that returns
    gives [None] or a true value held, at some depth, by a field that has
    the target tag: never the value of a field with another tag. *)
Theorem walk_first_sound (ds : dataset) (_tag : Tag) (v : pyvalue) :
  walk ds walker_callback _tag false = Ok v ->
  v = PNone \/
  (truthy v = true /\
   exists de, has_field ds de /\ tag de = _tag /\ value de = v).
Proof. intros H. apply walk_sound in H. exact H. Qed.

Lemma walk_first_sound_witness :
  walk echo_time_tree walker_callback (0x0018, 0x0081)%N false = Ok (PFloat 30) /\
  (PFloat 30 = PNone \/
   (truthy (PFloat 30) = true /\
    exists de, has_field echo_time_tree de /\ tag de = (0x0018, 0x0081)%N
               /\ value de = PFloat 30)).
Proof.
  split; [reflexivity|].
  apply (walk_first_sound echo_time_tree (0x0018, 0x0081)%N). reflexivity.
Defined.

(** ** The order in which the elements were stored does not matter *)

Lemma unique_tags_NoDup (l : list Tag) : unique_tags l = true <-> NoDup l.
Proof.
  induction l as [|t r IH]; simpl.
  - split; [constructor|reflexivity].
  - rewrite andb_true_iff, negb_true_iff, IH. split.
    + intros [H N]. constructor; [|exact N]. intros Hin.
      rewrite <- not_true_iff_false in H. apply H.
      apply existsb_exists. exists t. split; [exact Hin|apply tag_eqb_refl].
    + intros H. inversion H as [|? ? Hn Hr]; subst. split; [|exact Hr].
      apply not_true_iff_false. intros E. apply existsb_exists in E.
      destruct E as (x & Hx & E). apply tag_eqb_eq in E. subst x. contradiction.
Qed.

Lemma unique_tags_perm (l l' : list data_element) :
  Permutation l l' -> unique_tags (map tag l) = true ->
  unique_tags (map tag l') = true.
Proof.
  intros P. rewrite !unique_tags_NoDup.
  apply Permutation_NoDup. apply Permutation_map. exact P.
Qed.

Lemma unique_tags_inj (l : list data_element) (a b : data_element) :
  unique_tags (map tag l) = true -> In a l -> In b l -> tag a = tag b -> a = b.
Proof.
  intros U Ha Hb E.
  pose proof (unique_tags_find l a U Ha) as Fa.
  pose proof (unique_tags_find l b U Hb) as Fb.
  rewrite E in Fa. congruence.
Qed.

Lemma sorted_perm_unique {A : Type} (R : A -> A -> Prop) (l1 : list A) :
  forall l2,
    StronglySorted R l1 -> StronglySorted R l2 -> Permutation l1 l2 ->
    (forall a b, In a l1 -> In b l1 -> R a b -> R b a -> a = b) ->
    l1 = l2.
Proof.
  induction l1 as [|a r1 IH]; intros l2 S1 S2 P Anti.
  - apply Permutation_nil in P. subst; reflexivity.
  - destruct l2 as [|b r2]; [apply Permutation_sym, Permutation_nil in P; discriminate|].
    inversion S1 as [|? ? Sr1 Fa]; subst. inversion S2 as [|? ? Sr2 Fb]; subst.
    rewrite Forall_forall in Fa, Fb.
    assert (a = b) as ->.
    { assert (In a (b :: r2)) as Ha by (eapply Permutation_in; [exact P|left; reflexivity]).
      assert (In b (a :: r1)) as Hb
        by (eapply Permutation_in; [apply Permutation_sym; exact P|left; reflexivity]).
      destruct Ha as [->|Ha]; [reflexivity|].
      destruct Hb as [->|Hb]; [reflexivity|].
      apply Anti; [left; reflexivity|right; exact Hb|apply Fa; exact Hb|apply Fb; exact Ha]. }
    f_equal. apply IH; try assumption.
    + eapply Permutation_cons_inv; exact P.
    + intros x y Hx Hy. apply Anti; right; assumption.
Qed.

Lemma sort_by_tag_perm (l l' : list data_element) :
  unique_tags (map tag l) = true -> Permutation l l' ->
  sort_by tag l = sort_by tag l'.
Proof.
  intros U P.
  apply (sorted_perm_unique (fun a b => tag_le (tag a) (tag b))).
  - apply sort_by_sorted.
  - apply sort_by_sorted.
  - rewrite <- (sort_by_perm tag l), <- (sort_by_perm tag l'). exact P.
  - intros a b Ha Hb Rab Rba. apply sort_by_In in Ha, Hb.
    apply (unique_tags_inj l a b U Ha Hb).
    apply tag_leb_antisym; assumption.
Qed.

Lemma getitem_perm (l l' : list data_element) (t : Tag) :
  unique_tags (map tag l) = true -> Permutation l l' ->
  getitem (Dataset l) t = getitem (Dataset l') t.
Proof.
  intros U P. pose proof (unique_tags_perm l l' P U) as U'.
  unfold getitem. simpl.
  destruct (find (fun de => tag_eqb (tag de) t) l) as [e|] eqn:F.
  - apply find_some in F. destruct F as [Hin E]. apply tag_eqb_eq in E. subst t.
    rewrite (unique_tags_find l' e U'); [reflexivity|].
    eapply Permutation_in; eassumption.
  - destruct (find (fun de => tag_eqb (tag de) t) l') as [e'|] eqn:F'; [|reflexivity].
    apply find_some in F'. destruct F' as [Hin E].
    apply (Permutation_in _ (Permutation_sym P)) in Hin.
    rewrite (find_none _ _ F e' Hin) in E. discriminate.
Qed.

Lemma contains_tag_perm (l l' : list data_element) (t : Tag) :
  Permutation l l' -> contains_tag (Dataset l) t = contains_tag (Dataset l') t.
Proof.
  intros P. unfold contains_tag. simpl.
  apply eq_true_iff_eq. rewrite !existsb_exists.
  split; intros (x & Hx & E); exists x; split; try exact E;
    eapply Permutation_in; try eassumption; apply Permutation_sym; exact P.
Qed.

Lemma walk_tags_same_items (rec : dataset -> outcome pyvalue)
  (callback : data_element -> Tag -> pyvalue) (_tag : Tag) (stack_values : bool)
  (ds ds' : dataset) (taglist : list Tag) :
  (forall t, getitem ds t = getitem ds' t) ->
  (forall t, contains_tag ds t = contains_tag ds' t) ->
  forall out_list,
    walk_tags rec callback _tag stack_values ds taglist out_list
    = walk_tags rec callback _tag stack_values ds' taglist out_list.
Proof.
  intros G C. induction taglist as [|t rest IH]; intros out_list; simpl; [reflexivity|].
  unfold walk_element. rewrite (G t), (C t).
  destruct (getitem ds' t) as [de|e]; simpl; [|reflexivity].
  destruct (truthy (callback de _tag)).
  - destruct stack_values; simpl; [apply IH|reflexivity].
  - destruct (contains_tag ds' t && String.eqb (VR de) "SQ")%bool; simpl; [|apply IH].
    destruct (iter_datasets (value de)) as [items|e]; simpl; [|reflexivity].
    destruct (walk_sequence rec stack_values items out_list) as [[l|v]|e];
      simpl; auto.
Qed.

(** X3. The result of [walk] does not depend on the order in which the
    elements were put into the dataset: two dictionaries with the same
    elements, one per tag, give the same result, for every callback, tag
    and mode. *)
Theorem walk_insertion_order (l l' : list data_element)
  (callback : data_element -> Tag -> pyvalue) (_tag : Tag) (stack_values : bool) :
  unique_tags (map tag l) = true ->
  Permutation l l' ->
  walk (Dataset l) callback _tag stack_values
  = walk (Dataset l') callback _tag stack_values.
Proof.
  intros U P. rewrite !walk_unfold, !sorted_keys. simpl.
  rewrite (sort_by_tag_perm l l' U P).
  apply walk_tags_same_items.
  - intros t. apply getitem_perm; assumption.
  - intros t. apply contains_tag_perm; assumption.
Qed.

Lemma walk_insertion_order_witness :
  unique_tags (map tag (elems echo_time_tree)) = true /\
  Permutation (elems echo_time_tree) (rev (elems echo_time_tree)) /\
  walk (Dataset (elems echo_time_tree)) walker_callback (0x0018, 0x0081)%N false
  = walk (Dataset (rev (elems echo_time_tree))) walker_callback (0x0018, 0x0081)%N false.
Proof.
  split; [reflexivity|]. split; [apply Permutation_rev|].
  apply (walk_insertion_order (elems echo_time_tree) (rev (elems echo_time_tree))
           walker_callback (0x0018, 0x0081)%N false);
    [reflexivity|apply Permutation_rev].
Defined.

(** X4. On a tagged tree the two modes agree: what first-match mode returns
    is the first entry of the list that collect mode returns, and it is
    [None] exactly when that list is empty. *)
Theorem walk_first_is_head_of_collect (ds : dataset) (_tag : Tag) :
  tagged_tree ds = true ->
  exists l,
    walk ds walker_callback _tag true = Ok (PList l) /\
    walk ds walker_callback _tag false = Ok (first_or_none l) /\
    (first_or_none l = PNone <-> l = []).
Proof.
  intros WF. exists (found _tag ds).
  split; [apply (walk_found _tag true ds WF)|].
  split; [apply (walk_found _tag false ds WF)|].
  split.
  - intros H. destruct (found _tag ds) as [|v r] eqn:F; [reflexivity|].
    simpl in H. subst v.
    pose proof (filter_truthy_all (matches _tag ds)) as A.
    fold (found _tag ds) in A. rewrite F in A. inversion A; discriminate.
  - intros ->. reflexivity.
Qed.

Lemma walk_first_is_head_of_collect_witness :
  tagged_tree b_value_tree = true /\
  exists l,
    walk b_value_tree walker_callback (0x0018, 0x9087)%N true = Ok (PList l) /\
    walk b_value_tree walker_callback (0x0018, 0x9087)%N false = Ok (first_or_none l) /\
    (first_or_none l = PNone <-> l = []).
Proof.
  split; [reflexivity|].
  apply (walk_first_is_head_of_collect b_value_tree (0x0018, 0x9087)%N). reflexivity.
Defined.

(** ** A field that breaks the invariant *)

Lemma sort_by_tag_head (l : list data_element) (de : data_element) :
  unique_tags (map tag l) = true ->
  In de l ->
  (forall e, In e l -> tag_leb (tag de) (tag e) = true) ->
  exists rest, sort_by tag l = de :: rest.
Proof.
  intros U Hin Hmin.
  pose proof (sort_by_sorted tag l) as S.
  pose proof (proj2 (sort_by_In tag de l) Hin) as Hde.
  destruct (sort_by tag l) as [|h rest] eqn:E; [contradiction|].
  assert (In h l) as Hh by (apply (sort_by_In tag); rewrite E; left; reflexivity).
  assert (h = de) as ->; [|eauto].
  destruct Hde as [->|Hde]; [reflexivity|].
  inversion S as [|? ? _ F]; subst. rewrite Forall_forall in F.
  apply (unique_tags_inj l h de U Hh Hin).
  apply tag_leb_antisym; [apply F; exact Hde|apply Hmin; exact Hh].
Qed.

(** X5. When the field with the smallest tag of a dataset has the kind "SQ"
    and a value that cannot be walked (a number, or a text or list that is
    not empty), and it is not returned as a match, [walk] raises the
    exception of that iteration, in both modes. *)
Theorem walk_raises_on_broken_sequence (l : list data_element) (de : data_element)
  (_tag : Tag) (stack_values : bool) (e : exn) :
  unique_tags (map tag l) = true ->
  In de l ->
  (forall x, In x l -> tag_leb (tag de) (tag x) = true) ->
  truthy (walker_callback de _tag) = false ->
  VR de = "SQ" ->
  iter_datasets (value de) = Raise e ->
  walk (Dataset l) walker_callback _tag stack_values = Raise e.
Proof.
  intros U Hin Hmin T Hvr Hit.
  rewrite walk_unfold, sorted_keys. simpl.
  destruct (sort_by_tag_head l de U Hin Hmin) as [rest ->]. simpl.
  unfold walk_element.
  rewrite (getitem_unique (Dataset l) de U Hin). simpl.
  rewrite T, (contains_tag_In (Dataset l) de Hin), Hvr. simpl.
  rewrite Hit. reflexivity.
Qed.

Lemma walk_raises_on_broken_sequence_witness :
  let l := [DataElement (0x0008, 0x1140)%N "SQ" (PInt 3);
            DataElement (0x0018, 0x0081)%N "DS" (PFloat 30)] in
  let de := DataElement (0x0008, 0x1140)%N "SQ" (PInt 3) in
  unique_tags (map tag l) = true /\
  In de l /\
  (forall x, In x l -> tag_leb (tag de) (tag x) = true) /\
  truthy (walker_callback de (0x0018, 0x0081)%N) = false /\
  VR de = "SQ" /\
  iter_datasets (value de) = Raise TypeError /\
  walk (Dataset l) walker_callback (0x0018, 0x0081)%N false = Raise TypeError.
Proof.
  assert (forall x,
            In x [DataElement (0x0008, 0x1140)%N "SQ" (PInt 3);
                  DataElement (0x0018, 0x0081)%N "DS" (PFloat 30)] ->
            tag_leb (0x0008, 0x1140)%N (tag x) = true) as M
    by (intros x [<-|[<-|[]]]; reflexivity).
  cbv zeta.
  split; [reflexivity|]. split; [left; reflexivity|]. split; [exact M|].
  split; [reflexivity|]. split; [reflexivity|]. split; [reflexivity|].
  apply (walk_raises_on_broken_sequence _ (DataElement (0x0008, 0x1140)%N "SQ" (PInt 3)));
    try reflexivity; [left; reflexivity|exact M].
Defined.

(** * Further properties of the extractors *)

Lemma walk_collect_list (ds : dataset) (_tag : Tag) (v : pyvalue) :
  walk ds walker_callback _tag true = Ok v ->
  exists l, v = PList l /\ Forall (true_value_of _tag ds) l.
Proof. intros H. apply walk_sound in H. exact H. Qed.

(** X6. [get_phase_encoding] returns the text of the first entry collected
    for the tag (0018,1312), or [None] when nothing was collected; it never
    returns the list itself, so its last [return value] is never reached,
    and it raises only if the decoder or the walker does. *)
Theorem get_phase_encoding_first_entry (read_file : string -> outcome dataset)
  (builtin_repr : pyvalue -> string) (uid_dictionary : string -> option string)
  (dataset_str : dataset -> string)
  (path_to_dicom : string) (ds : dataset) (v : pyvalue) :
  read_file path_to_dicom = Ok ds ->
  walk ds walker_callback (0x0018, 0x1312)%N true = Ok v ->
  exists l, v = PList l /\
    get_phase_encoding read_file builtin_repr uid_dictionary dataset_str path_to_dicom
    = Ok (match l with
          | [] => PNone
          | first :: _ => PStr (py_str builtin_repr uid_dictionary first)
          end).
Proof.
  intros Hread Hw. destruct (walk_collect_list _ _ _ Hw) as (l & -> & _).
  exists l. split; [reflexivity|].
  unfold get_phase_encoding. run_extractor Hread Hw.
  destruct l; reflexivity.
Qed.

Lemma get_phase_encoding_first_entry_witness :
  (fun _ => Ok phase_encoding_tree) "im.dcm" = Ok phase_encoding_tree /\
  walk phase_encoding_tree walker_callback (0x0018, 0x1312)%N true
  = Ok (PList [PStr "ROW"]) /\
  get_phase_encoding (fun _ => Ok phase_encoding_tree) (fun _ => "") (fun _ => None)
    (fun _ => "") "im.dcm"
  = Ok (PStr "ROW").
Proof.
  split; [reflexivity|]. split; [reflexivity|].
  destruct (get_phase_encoding_first_entry (fun _ => Ok phase_encoding_tree)
              (fun _ => "") (fun _ => None) (fun _ => "") "im.dcm" phase_encoding_tree
              (PList [PStr "ROW"]) eq_refl eq_refl) as (l & E & H).
  injection E as <-. exact H.
Defined.

(** X7. What [get_b_vectors], [get_b_values] and
    [get_all_sop_instance_uids] return is a list of true values of fields
    that have their tag: a b-value of 0 is never in the list.  On a tagged
    tree they return every true entry and raise nothing. *)
Theorem collect_extractors_entries (read_file : string -> outcome dataset)
  (path_to_dicom : string) (ds : dataset) :
  read_file path_to_dicom = Ok ds ->
  (forall v, get_b_vectors read_file path_to_dicom = Ok v ->
     exists l, v = PList l /\ Forall (true_value_of (0x0018, 0x9089)%N ds) l) /\
  (forall v, get_b_values read_file path_to_dicom = Ok v ->
     exists l, v = PList l /\ Forall (true_value_of (0x0018, 0x9087)%N ds) l) /\
  (forall v, get_all_sop_instance_uids read_file path_to_dicom = Ok v ->
     exists l, v = PList l /\ Forall (true_value_of (0x0008, 0x1155)%N ds) l) /\
  (tagged_tree ds = true ->
     get_b_vectors read_file path_to_dicom = Ok (PList (found (0x0018, 0x9089)%N ds)) /\
     get_b_values read_file path_to_dicom = Ok (PList (found (0x0018, 0x9087)%N ds)) /\
     get_all_sop_instance_uids read_file path_to_dicom
     = Ok (PList (found (0x0008, 0x1155)%N ds))).
Proof.
  intros Hread.
  unfold get_b_vectors, get_b_values, get_all_sop_instance_uids.
  rewrite Hread. cbn [bind].
  split; [intros v; apply walk_collect_list|].
  split; [intros v; apply walk_collect_list|].
  split; [intros v; apply walk_collect_list|].
  intros WF. repeat split; apply (walk_found _ true ds WF).
Qed.

Lemma collect_extractors_entries_witness :
  (fun _ => Ok b_value_tree) "im.dcm" = Ok b_value_tree /\
  tagged_tree b_value_tree = true /\
  get_b_values (fun _ => Ok b_value_tree) "im.dcm" = Ok (PList [PFloat 1000]).
Proof.
  split; [reflexivity|]. split; [reflexivity|].
  apply (collect_extractors_entries (fun _ => Ok b_value_tree) "im.dcm"
           b_value_tree eq_refl).
  reflexivity.
Defined.

Lemma first_or_found_true (default : pyvalue) (t : Tag) (ds : dataset) :
  truthy default = true -> truthy (first_or default (found t ds)) = true.
Proof.
  intros D. pose proof (filter_truthy_all (matches t ds)) as A.
  fold (found t ds) in A. destruct (found t ds); [exact D|].
  inversion A; assumption.
Qed.

Ltac value_or_default Hread WF :=
  rewrite Hread; cbn [bind]; rewrite (walk_found _ false _ WF); cbn [bind];
  unfold walk_result, first_or_none, first_or;
  match goal with
  | |- context [found ?t ?ds] =>
      let F := fresh "F" in
      let A := fresh "A" in
      pose proof (filter_truthy_all (matches t ds)) as A;
      fold (found t ds) in A;
      destruct (found t ds) as [|? ?] eqn:F;
      [reflexivity|inversion A as [|? ? T ?]; subst; rewrite T; reflexivity]
  end.

(** X8. On a tagged tree, [get_date_scan], [get_echo_time],
    [get_raw_data_run_number] and [get_sequence_number] return the first
    true entry for their tag, and their default ('0', -1, -1, '0') when
    there is none; so they never return [None], 0 or an empty text, and a
    stored echo time of 0 comes back as -1. *)
Theorem default_extractors_first_true_entry (read_file : string -> outcome dataset)
  (path_to_dicom : string) (ds : dataset) :
  read_file path_to_dicom = Ok ds ->
  tagged_tree ds = true ->
  (get_date_scan read_file path_to_dicom
   = Ok (first_or (PStr "0") (found (0x0008, 0x0022)%N ds)) /\
   get_echo_time read_file path_to_dicom
   = Ok (first_or (PInt (-1)) (found (0x0018, 0x0081)%N ds)) /\
   get_raw_data_run_number read_file path_to_dicom
   = Ok (first_or (PInt (-1)) (found (0x0019, 0x10a2)%N ds)) /\
   get_sequence_number read_file path_to_dicom
   = Ok (first_or (PStr "0") (found (0x0020, 0x0011)%N ds))) /\
  (forall extract,
     In extract [get_date_scan read_file; get_echo_time read_file;
                 get_raw_data_run_number read_file; get_sequence_number read_file] ->
     exists r, extract path_to_dicom = Ok r /\ truthy r = true).
Proof.
  intros Hread WF.
  assert (get_date_scan read_file path_to_dicom
          = Ok (first_or (PStr "0") (found (0x0008, 0x0022)%N ds))) as H1
    by (unfold get_date_scan; value_or_default Hread WF).
  assert (get_echo_time read_file path_to_dicom
          = Ok (first_or (PInt (-1)) (found (0x0018, 0x0081)%N ds))) as H2
    by (unfold get_echo_time; value_or_default Hread WF).
  assert (get_raw_data_run_number read_file path_to_dicom
          = Ok (first_or (PInt (-1)) (found (0x0019, 0x10a2)%N ds))) as H3
    by (unfold get_raw_data_run_number; value_or_default Hread WF).
  assert (get_sequence_number read_file path_to_dicom
          = Ok (first_or (PStr "0") (found (0x0020, 0x0011)%N ds))) as H4
    by (unfold get_sequence_number; value_or_default Hread WF).
  split; [auto|].
  intros extract [<-|[<-|[<-|[<-|[]]]]]; eexists; (split; [eassumption|]);
    apply first_or_found_true; reflexivity.
Qed.

Lemma default_extractors_first_true_entry_witness :
  (fun _ => Ok echo_time_tree) "im.dcm" = Ok echo_time_tree /\
  tagged_tree echo_time_tree = true /\
  get_echo_time (fun _ => Ok echo_time_tree) "im.dcm" = Ok (PFloat 30) /\
  get_date_scan (fun _ => Ok echo_time_tree) "im.dcm" = Ok (PStr "0").
Proof.
  split; [reflexivity|]. split; [reflexivity|].
  destruct (default_extractors_first_true_entry (fun _ => Ok echo_time_tree)
              "im.dcm" echo_time_tree eq_refl eq_refl) as [(H1 & H2 & _) _].
  split; [exact H2|exact H1].
Defined.

Ltac absent_default Hread Inv :=
  rewrite Hread; cbn [bind];
  match goal with
  | Abs : tag_absent ?t ?ds = true |- context [walk ?ds walker_callback ?t ?sv] =>
      rewrite (walk_absent t sv ds Inv Abs); cbn [bind walk_result truthy]
  end.

(** X9. On a tree that keeps the field invariant and holds the tag of an
    extractor at no depth, the extractor returns its documented default and
    raises nothing: [None], the empty list, '0', -1, [False], 0 or
    'unknown'. *)
Theorem extractors_default_when_absent (read_file : string -> outcome dataset)
  (builtin_repr : pyvalue -> string) (uid_dictionary : string -> option string)
  (dataset_str : dataset -> string)
  (float_of_str : string -> outcome float)
  (path_to_dicom : string) (ds : dataset) :
  read_file path_to_dicom = Ok ds ->
  fields_invariant ds = true ->
  (tag_absent (0x0018, 0x1312)%N ds = true ->
   get_phase_encoding read_file builtin_repr uid_dictionary dataset_str path_to_dicom = Ok PNone) /\
  (tag_absent (0x0018, 0x9089)%N ds = true ->
   get_b_vectors read_file path_to_dicom = Ok (PList [])) /\
  (tag_absent (0x0018, 0x9087)%N ds = true ->
   get_b_values read_file path_to_dicom = Ok (PList [])) /\
  (tag_absent (0x0018, 0x0080)%N ds = true ->
   get_repetition_time read_file builtin_repr uid_dictionary path_to_dicom = Ok None) /\
  (tag_absent (0x0008, 0x0022)%N ds = true ->
   get_date_scan read_file path_to_dicom = Ok (PStr "0")) /\
  (tag_absent (0x0018, 0x0081)%N ds = true ->
   get_echo_time read_file path_to_dicom = Ok (PInt (-1))) /\
  (tag_absent (0x0008, 0x1155)%N ds = true ->
   get_all_sop_instance_uids read_file path_to_dicom = Ok (PList [])) /\
  (tag_absent (0x0008, 0x0016)%N ds = true ->
   get_sop_storage_type read_file builtin_repr uid_dictionary path_to_dicom = Ok false) /\
  (tag_absent (0x0019, 0x10a2)%N ds = true ->
   get_raw_data_run_number read_file path_to_dicom = Ok (PInt (-1))) /\
  (tag_absent (0x0020, 0x0011)%N ds = true ->
   get_sequence_number read_file path_to_dicom = Ok (PStr "0")) /\
  (tag_absent (0x0020, 0x1002)%N ds = true ->
   tag_absent (0x2001, 0x1018)%N ds = true ->
   get_nb_slices read_file path_to_dicom = Ok 0) /\
  (tag_absent (0x0020, 0x0105)%N ds = true ->
   get_nb_temporal_position read_file path_to_dicom = Ok 0) /\
  (tag_absent (0x0008, 0x0070)%N ds = true ->
   get_manufacturer_name read_file path_to_dicom = Ok "unknown") /\
  (tag_absent (0x0008, 0x1090)%N ds = true ->
   get_manufacturer_model_name read_file path_to_dicom = Ok "unknown") /\
  (tag_absent (0x0008, 0x103e)%N ds = true ->
   get_sequence_name read_file path_to_dicom = Ok "unknown") /\
  (tag_absent (0x0008, 0x0018)%N ds = true ->
   get_SOPInstanceUID read_file path_to_dicom = Ok "unknown") /\
  (tag_absent (0x0008, 0x0013)%N ds = true ->
   get_InstanceCreationTime read_file float_of_str path_to_dicom = Ok (PStr "unknown")) /\
  (tag_absent (0x0018, 0x1030)%N ds = true ->
   get_protocol_name read_file path_to_dicom = Ok "unknown") /\
  (tag_absent (0x0020, 0x000e)%N ds = true ->
   get_serie_serieInstanceUID read_file path_to_dicom = Ok "unknown").
Proof.
  intros Hread Inv.
  unfold get_phase_encoding, get_b_vectors, get_b_values, get_repetition_time,
    get_date_scan, get_echo_time, get_all_sop_instance_uids, get_sop_storage_type,
    get_raw_data_run_number, get_sequence_number, get_nb_slices,
    get_nb_temporal_position, get_manufacturer_name, get_manufacturer_model_name,
    get_sequence_name, get_SOPInstanceUID, get_InstanceCreationTime,
    get_protocol_name, get_serie_serieInstanceUID.
  repeat split; intros Abs; try (absent_default Hread Inv; reflexivity).
  intros Abs2. rewrite Hread. cbn [bind].
  rewrite (walk_absent _ false ds Inv Abs). cbn [bind walk_result truthy first_or_none].
  rewrite (walk_absent _ false ds Inv Abs2). reflexivity.
Qed.

Lemma extractors_default_when_absent_witness :
  (fun _ => Ok manufacturer_tree) "im.dcm" = Ok manufacturer_tree /\
  fields_invariant manufacturer_tree = true /\
  tag_absent (0x0018, 0x0081)%N manufacturer_tree = true /\
  get_echo_time (fun _ => Ok manufacturer_tree) "im.dcm" = Ok (PInt (-1)).
Proof.
  split; [reflexivity|]. split; [reflexivity|]. split; [reflexivity|].
  apply (extractors_default_when_absent (fun _ => Ok manufacturer_tree)
           (fun _ => "") (fun _ => None) (fun _ => "") (fun _ => Raise ValueError) "im.dcm"
           manufacturer_tree eq_refl eq_refl).
  reflexivity.
Defined.

(** No extractor that reads the file through the decoder hides a
    failure of the decoder: when [dicom.read_file] raises, the extractor
    raises the same exception instead of returning its default. *)
Theorem extractors_propagate_decoder_error (read_file : string -> outcome dataset)
  (builtin_repr : pyvalue -> string) (uid_dictionary : string -> option string)
  (dataset_str : dataset -> string)
  (float_of_str : string -> outcome float)
  (path_to_dicom : string) (e : exn) :
  read_file path_to_dicom = Raise e ->
  get_phase_encoding read_file builtin_repr uid_dictionary dataset_str path_to_dicom = Raise e /\
  get_b_vectors read_file path_to_dicom = Raise e /\
  get_b_values read_file path_to_dicom = Raise e /\
  get_repetition_time read_file builtin_repr uid_dictionary path_to_dicom = Raise e /\
  get_date_scan read_file path_to_dicom = Raise e /\
  get_echo_time read_file path_to_dicom = Raise e /\
  get_all_sop_instance_uids read_file path_to_dicom = Raise e /\
  get_sop_storage_type read_file builtin_repr uid_dictionary path_to_dicom = Raise e /\
  get_raw_data_run_number read_file path_to_dicom = Raise e /\
  get_sequence_number read_file path_to_dicom = Raise e /\
  get_nb_slices read_file path_to_dicom = Raise e /\
  get_nb_temporal_position read_file path_to_dicom = Raise e /\
  get_manufacturer_name read_file path_to_dicom = Raise e /\
  get_manufacturer_model_name read_file path_to_dicom = Raise e /\
  get_sequence_name read_file path_to_dicom = Raise e /\
  get_SOPInstanceUID read_file path_to_dicom = Raise e /\
  get_InstanceCreationTime read_file float_of_str path_to_dicom = Raise e /\
  get_protocol_name read_file path_to_dicom = Raise e /\
  get_serie_serieInstanceUID read_file path_to_dicom = Raise e.
Proof.
  intros Hread.
  unfold get_phase_encoding, get_b_vectors, get_b_values, get_repetition_time,
    get_date_scan, get_echo_time, get_all_sop_instance_uids, get_sop_storage_type,
    get_raw_data_run_number, get_sequence_number, get_nb_slices,
    get_nb_temporal_position, get_manufacturer_name, get_manufacturer_model_name,
    get_sequence_name, get_SOPInstanceUID, get_InstanceCreationTime,
    get_protocol_name, get_serie_serieInstanceUID.
  rewrite Hread. repeat split; reflexivity.
Qed.

Lemma extractors_propagate_decoder_error_witness :
  (fun _ : string => @Raise dataset IOError) "missing.dcm" = Raise IOError /\
  get_echo_time (fun _ => Raise IOError) "missing.dcm" = Raise IOError.
Proof.
  split; [reflexivity|].
  apply (extractors_propagate_decoder_error (fun _ => Raise IOError)
           (fun _ => "") (fun _ => None) (fun _ => "") (fun _ => Raise ValueError)
           "missing.dcm" IOError eq_refl).
Defined.

(** ** The free-text extractors *)

Lemma underscore_spaces_length (s : string) :
  String.length (underscore_spaces s) = String.length s.
Proof. induction s as [|c s IH]; simpl; [|rewrite IH]; reflexivity. Qed.

Lemma underscore_spaces_no_space (s : string) :
  str_contains " " (underscore_spaces s) = false.
Proof.
  induction s as [|c s IH]; [reflexivity|].
  cbn [underscore_spaces str_contains String.prefix]. rewrite IH, orb_false_r.
  destruct (Ascii.eqb_spec c " ") as [->|N].
  - reflexivity.
  - destruct (ascii_dec " " c) as [E|_]; [symmetry in E; contradiction|reflexivity].
Qed.

Ltac free_text_found Hread Hw :=
  run_extractor Hread Hw;
  destruct (walk_first_truthy _ _ _ _ Hw) as [?E|?T]; [discriminate|];
  match goal with T : truthy _ = true |- _ => rewrite T end;
  cbn [replace_spaces]; rewrite str_replace_spaces.

Lemma clean_underscore_spaces (s : string) : clean_text_of s (Ok (underscore_spaces s)).
Proof.
  exists (underscore_spaces s). split; [reflexivity|].
  split; [apply underscore_spaces_length|apply underscore_spaces_no_space].
Qed.

(** X10. The text returned by a free-text extractor for a string found, or
    for an identifier found, has the length of what was found and holds no
    space. *)
Theorem free_text_has_no_space (read_file : string -> outcome dataset)
  (path_to_dicom : string) (ds : dataset) (s : string) (v : pyvalue) :
  read_file path_to_dicom = Ok ds ->
  v = PStr s \/ v = PUID s ->
  (walk ds walker_callback (0x0008, 0x0070)%N false = Ok v ->
   clean_text_of s (get_manufacturer_name read_file path_to_dicom)) /\
  (walk ds walker_callback (0x0008, 0x1090)%N false = Ok v ->
   clean_text_of s (get_manufacturer_model_name read_file path_to_dicom)) /\
  (walk ds walker_callback (0x0008, 0x103e)%N false = Ok v ->
   clean_text_of s (get_sequence_name read_file path_to_dicom)) /\
  (walk ds walker_callback (0x0008, 0x0018)%N false = Ok v ->
   clean_text_of s (get_SOPInstanceUID read_file path_to_dicom)) /\
  (walk ds walker_callback (0x0018, 0x1030)%N false = Ok v ->
   clean_text_of s (get_protocol_name read_file path_to_dicom)) /\
  (walk ds walker_callback (0x0020, 0x000e)%N false = Ok v ->
   clean_text_of s (get_serie_serieInstanceUID read_file path_to_dicom)).
Proof.
  intros Hread Hv.
  unfold get_manufacturer_name, get_manufacturer_model_name, get_sequence_name,
    get_SOPInstanceUID, get_protocol_name, get_serie_serieInstanceUID.
  destruct Hv as [-> | ->];
    repeat split; intros Hw; free_text_found Hread Hw; apply clean_underscore_spaces.
Qed.

Lemma free_text_has_no_space_witness :
  (fun _ => Ok manufacturer_tree) "im.dcm" = Ok manufacturer_tree /\
  (PStr "General Electric" = PStr "General Electric"
   \/ PStr "General Electric" = PUID "General Electric") /\
  walk manufacturer_tree walker_callback (0x0008, 0x0070)%N false
  = Ok (PStr "General Electric") /\
  clean_text_of "General Electric"
    (get_manufacturer_name (fun _ => Ok manufacturer_tree) "im.dcm").
Proof.
  split; [reflexivity|]. split; [left; reflexivity|]. split; [reflexivity|].
  apply (free_text_has_no_space (fun _ => Ok manufacturer_tree) "im.dcm"
           manufacturer_tree "General Electric" (PStr "General Electric") eq_refl
           (or_introl eq_refl)).
  reflexivity.
Defined.

Ltac free_text_other Hread Hw Hv Hs :=
  run_extractor Hread Hw;
  destruct (walk_first_truthy _ _ _ _ Hw) as [?E|?T]; [contradiction|];
  match goal with T : truthy _ = true |- _ => rewrite T end;
  match goal with |- replace_spaces ?v = _ => destruct v; try discriminate Hs; reflexivity end.

(** X11. When the value found by a free-text extractor is not a string (a
    number, or the list of a field with several values), the extractor
    raises [AttributeError]: it neither converts the value nor returns
    'unknown'. *)
Theorem free_text_not_a_string (read_file : string -> outcome dataset)
  (path_to_dicom : string) (ds : dataset) (v : pyvalue) :
  read_file path_to_dicom = Ok ds ->
  v <> PNone ->
  is_string v = false ->
  (walk ds walker_callback (0x0008, 0x0070)%N false = Ok v ->
   get_manufacturer_name read_file path_to_dicom = Raise AttributeError) /\
  (walk ds walker_callback (0x0008, 0x1090)%N false = Ok v ->
   get_manufacturer_model_name read_file path_to_dicom = Raise AttributeError) /\
  (walk ds walker_callback (0x0008, 0x103e)%N false = Ok v ->
   get_sequence_name read_file path_to_dicom = Raise AttributeError) /\
  (walk ds walker_callback (0x0008, 0x0018)%N false = Ok v ->
   get_SOPInstanceUID read_file path_to_dicom = Raise AttributeError) /\
  (walk ds walker_callback (0x0018, 0x1030)%N false = Ok v ->
   get_protocol_name read_file path_to_dicom = Raise AttributeError) /\
  (walk ds walker_callback (0x0020, 0x000e)%N false = Ok v ->
   get_serie_serieInstanceUID read_file path_to_dicom = Raise AttributeError).
Proof.
  intros Hread Hv Hs.
  unfold get_manufacturer_name, get_manufacturer_model_name, get_sequence_name,
    get_SOPInstanceUID, get_protocol_name, get_serie_serieInstanceUID.
  repeat split; intros Hw; free_text_other Hread Hw Hv Hs.
Qed.

Lemma free_text_not_a_string_witness :
  (fun _ => Ok two_manufacturers_tree) "im.dcm" = Ok two_manufacturers_tree /\
  PList [PStr "GE"; PStr "Philips"] <> PNone /\
  is_string (PList [PStr "GE"; PStr "Philips"]) = false /\
  walk two_manufacturers_tree walker_callback (0x0008, 0x0070)%N false
  = Ok (PList [PStr "GE"; PStr "Philips"]) /\
  get_manufacturer_name (fun _ => Ok two_manufacturers_tree) "im.dcm"
  = Raise AttributeError.
Proof.
  split; [reflexivity|]. split; [discriminate|]. split; [reflexivity|].
  split; [reflexivity|].
  apply (free_text_not_a_string (fun _ => Ok two_manufacturers_tree) "im.dcm"
           two_manufacturers_tree (PList [PStr "GE"; PStr "Philips"]) eq_refl);
    [discriminate|reflexivity|reflexivity].
Defined.

(** ** The integer extractors *)

Lemma str_of_Z_neg (p : positive) :
  str_of_Z (Z.neg p) = String "-" (str_of_Z (Z.pos p)).
Proof. reflexivity. Qed.

Lemma str_of_Z_pos_nonempty (p : positive) : str_of_Z (Z.pos p) <> EmptyString.
Proof.
  intros E. destruct (str_of_Z_digits p) as [_ V]. rewrite E in V. discriminate.
Qed.

(** [int(str(z))] is [z]. *)
Lemma int_of_str_of_Z (z : Z) : int_of_str (str_of_Z z) = Ok z.
Proof.
  destruct z as [|p|p].
  - reflexivity.
  - destruct (str_of_Z_digits p) as [A V].
    apply int_of_str_digits; [exact A|apply str_of_Z_pos_nonempty|exact V].
  - rewrite str_of_Z_neg. destruct (str_of_Z_digits p) as [A V].
    pose proof (str_of_Z_pos_nonempty p) as N.
    unfold int_of_str. cbn [lstrip]. change (is_space "-") with false. cbv iota.
    cbn [rstrip]. rewrite (rstrip_digits _ A).
    destruct (str_of_Z (Z.pos p)) as [|c s] eqn:E; [contradiction|].
    change (Ascii.eqb "-" "-") with true. cbv iota.
    unfold unsigned_value. rewrite V. reflexivity.
Qed.

(** X12. When the value found is the decimal text of an integer [n], as an
    integer string of a DICOM file is, [get_nb_temporal_position] and
    [get_nb_slices] return [n]; when it is a text that [int] refuses, they
    raise its exception instead of returning 0. *)
Theorem integer_extractors_decimal_text (read_file : string -> outcome dataset)
  (path_to_dicom : string) (ds : dataset) :
  read_file path_to_dicom = Ok ds ->
  (forall n, walk ds walker_callback (0x0020, 0x0105)%N false = Ok (PStr (str_of_Z n)) ->
     get_nb_temporal_position read_file path_to_dicom = Ok n) /\
  (forall n, walk ds walker_callback (0x0020, 0x1002)%N false = Ok (PStr (str_of_Z n)) ->
     get_nb_slices read_file path_to_dicom = Ok n) /\
  (forall n, walk ds walker_callback (0x0020, 0x1002)%N false = Ok PNone ->
     walk ds walker_callback (0x2001, 0x1018)%N false = Ok (PStr (str_of_Z n)) ->
     get_nb_slices read_file path_to_dicom = Ok n) /\
  (forall s e, walk ds walker_callback (0x0020, 0x0105)%N false = Ok (PStr s) ->
     int_of_str s = Raise e ->
     get_nb_temporal_position read_file path_to_dicom = Raise e) /\
  (forall s e, walk ds walker_callback (0x0020, 0x1002)%N false = Ok (PStr s) ->
     int_of_str s = Raise e ->
     get_nb_slices read_file path_to_dicom = Raise e).
Proof.
  intros Hread. unfold get_nb_temporal_position, get_nb_slices.
  repeat split.
  - intros n Hw. run_extractor Hread Hw.
    destruct (walk_first_truthy _ _ _ _ Hw) as [E|T]; [discriminate|].
    rewrite T. cbn [py_int]. apply int_of_str_of_Z.
  - intros n Hw. run_extractor Hread Hw.
    destruct (walk_first_truthy _ _ _ _ Hw) as [E|T]; [discriminate|].
    rewrite T. cbn [py_int]. apply int_of_str_of_Z.
  - intros n Hw1 Hw2. run_extractor Hread Hw1. cbn [truthy]. rewrite Hw2. cbn [bind].
    destruct (walk_first_truthy _ _ _ _ Hw2) as [E|T]; [discriminate|].
    rewrite T. cbn [py_int]. apply int_of_str_of_Z.
  - intros s e Hw He. run_extractor Hread Hw.
    destruct (walk_first_truthy _ _ _ _ Hw) as [E|T]; [discriminate|].
    rewrite T. exact He.
  - intros s e Hw He. run_extractor Hread Hw.
    destruct (walk_first_truthy _ _ _ _ Hw) as [E|T]; [discriminate|].
    rewrite T. exact He.
Qed.

Lemma integer_extractors_decimal_text_witness :
  (fun _ => Ok temporal_positions_tree) "im.dcm" = Ok temporal_positions_tree /\
  walk temporal_positions_tree walker_callback (0x0020, 0x0105)%N false
  = Ok (PStr (str_of_Z 120)) /\
  get_nb_temporal_position (fun _ => Ok temporal_positions_tree) "im.dcm" = Ok 120.
Proof.
  split; [reflexivity|]. split; [reflexivity|].
  apply (integer_extractors_decimal_text (fun _ => Ok temporal_positions_tree)
           "im.dcm" temporal_positions_tree eq_refl).
  reflexivity.
Defined.

(** * Further properties of the dump reader *)

Section PhilipsResult.

Variable os_system : string -> filesystem -> filesystem.
Variable path_to_dicom : string.
Variable w : world.

Let temp : string := temporary_text_file_of path_to_dicom.
Let dumped : filesystem := dumped_files os_system path_to_dicom w.
Let removed : world :=
  World (remove_file (resolve w) dumped temp) (warnings w) (resolve w).

(** The whole result of the function, by what dcmdump left. *)
Lemma philips_result :
  get_number_of_slices_philips os_system path_to_dicom w
  = match dumped temp with
    | Some (Text lines) =>
        match find_marker_line lines with
        | Some line =>
            match int_of_str (str_last 2 (before_hash (without_spaces line))) with
            | Ok n => (n, removed)
            | Raise _ => (0, logging_warning no_slices_warning removed)
            end
        | None => (0, logging_warning no_slices_warning removed)
        end
    | _ => (0, logging_warning no_slices_warning (World dumped (warnings w) (resolve w)))
    end.
Proof.
  unfold get_number_of_slices_philips, philips_try, io_bind, run_system,
    open_read, os_remove. cbn [files warnings].
  change (os_system _ (files w)) with dumped.
  change (temporary_text_file_of path_to_dicom) with temp.
  destruct (dumped temp) as [[lines|]|] eqn:D; try reflexivity.
  cbn [readlines io_ret files warnings]. rewrite D.
  destruct (find_marker_line lines) as [line|]; [|reflexivity].
  unfold io_ret, io_lift. cbv beta iota.
  rewrite str_replace_no_spaces.
  pose proof (split_first_piece (without_spaces line)) as S.
  destruct (str_split (without_spaces line) "#") as [pieces|e]; [|discriminate S].
  cbn [bind] in S. cbv beta iota. rewrite S. cbv beta iota.
  destruct (int_of_str _); reflexivity.
Qed.

End PhilipsResult.

Lemma substring_length (s : string) :
  forall n m, (String.length (String.substring n m s) <= m)%nat.
Proof.
  induction s as [|c s IH]; intros n m.
  - destruct n, m; simpl; lia.
  - destruct n as [|n]; simpl.
    + destruct m as [|m]; simpl; [lia|]. specialize (IH O m). lia.
    + apply IH.
Qed.

Lemma lstrip_length (s : string) : (String.length (lstrip s) <= String.length s)%nat.
Proof.
  induction s as [|c s IH]; simpl; [lia|].
  destruct (is_space c); simpl; lia.
Qed.

Lemma rstrip_length (s : string) : (String.length (rstrip s) <= String.length s)%nat.
Proof.
  induction s as [|c s IH]; simpl; [lia|].
  destruct (rstrip s); [destruct (is_space c)|]; simpl in *; lia.
Qed.

(** [int] of at most two characters is between -9 and 99. *)
Lemma int_of_str_two (s : string) (n : Z) :
  (String.length s <= 2)%nat -> int_of_str s = Ok n -> -9 <= n <= 99.
Proof.
  intros L. unfold int_of_str.
  pose proof (rstrip_length (lstrip s)) as L1. pose proof (lstrip_length s) as L2.
  destruct (rstrip (lstrip s)) as [|c [|d [|x u]]]; cbn [String.length] in L1;
    try lia; try discriminate.
  - destruct (Ascii.eqb c "-"); [discriminate|].
    destruct (Ascii.eqb c "+"); [discriminate|].
    cbn [unsigned_value digits_value].
    destruct (digit_of c) as [k|] eqn:K; [|discriminate].
    apply digit_of_range in K. intros H. assert (n = 10 * 0 + k) by congruence. lia.
  - destruct (Ascii.eqb c "-").
    + cbn [unsigned_value digits_value].
      destruct (digit_of d) as [k|] eqn:K; [|discriminate].
      apply digit_of_range in K. cbn [bind]. intros H.
      assert (n = - (10 * 0 + k)) by congruence. lia.
    + destruct (Ascii.eqb c "+").
      * cbn [unsigned_value digits_value].
        destruct (digit_of d) as [k|] eqn:K; [|discriminate].
        apply digit_of_range in K. intros H.
        assert (n = 10 * 0 + k) by congruence. lia.
      * cbn [unsigned_value digits_value].
        destruct (digit_of c) as [k1|] eqn:K1; [|discriminate].
        destruct (digit_of d) as [k2|] eqn:K2; [|discriminate].
        apply digit_of_range in K1, K2. intros H.
        assert (n = 10 * (10 * 0 + k1) + k2) by congruence. lia.
Qed.

(** X13. Whatever dcmdump wrote, [get_number_of_slices_philips] returns an
    integer from -9 to 99: two characters cannot write more, so a stack of
    100 slices or more is never reported as such. *)
Theorem philips_result_range (os_system : string -> filesystem -> filesystem)
  (path_to_dicom : string) (w : world) :
  -9 <= fst (get_number_of_slices_philips os_system path_to_dicom w) <= 99.
Proof.
  rewrite philips_result.
  destruct (dumped_files os_system path_to_dicom w (temporary_text_file_of path_to_dicom))
    as [[lines|]|]; cbn [fst]; try lia.
  destruct (find_marker_line lines) as [line|]; cbn [fst]; try lia.
  destruct (int_of_str (str_last 2 (before_hash (without_spaces line)))) as [n|e] eqn:E;
    cbn [fst]; try lia.
  apply (int_of_str_two _ n) in E; [exact E|].
  unfold str_last. apply substring_length.
Qed.



(** Another spelling of the temporary file is removed with it. *)
Lemma philips_removes_every_spelling :
  resolve slashes_world "/data//temp.txt"
  = resolve slashes_world (temporary_text_file_of "/data/im.dcm") /\
  dumped_files dump_of_24_slashes "/data/im.dcm" slashes_world "/data//temp.txt"
  = Some (Text [manufacturer_line; slices_line_24]) /\
  files (snd (get_number_of_slices_philips dump_of_24_slashes "/data/im.dcm"
                slashes_world)) "/data//temp.txt" = None.
Proof. repeat split; reflexivity. Qed.

(** X15. Whenever the file written by dcmdump could be read, it no longer
    exists after the call, whether a line held the marker or not and
    whether the count could be parsed or not. *)
Theorem philips_removes_dump_it_read (os_system : string -> filesystem -> filesystem)
  (path_to_dicom : string) (w : world) (lines : list string) :
  dumped_files os_system path_to_dicom w (temporary_text_file_of path_to_dicom)
  = Some (Text lines) ->
  files (snd (get_number_of_slices_philips os_system path_to_dicom w))
    (temporary_text_file_of path_to_dicom) = None.
Proof.
  intros D. rewrite philips_result, D.
  assert (remove_file (resolve w) (dumped_files os_system path_to_dicom w)
            (temporary_text_file_of path_to_dicom)
            (temporary_text_file_of path_to_dicom) = None) as R
    by (unfold remove_file; rewrite String.eqb_refl; reflexivity).
  destruct (find_marker_line lines) as [line|]; cbn [snd files logging_warning];
    [|exact R].
  destruct (int_of_str _); cbn [snd files logging_warning]; exact R.
Qed.

Lemma philips_removes_dump_it_read_witness :
  dumped_files dump_of_24 "/data/im.dcm" empty_world (temporary_text_file_of "/data/im.dcm")
  = Some (Text [manufacturer_line; slices_line_24]) /\
  files (snd (get_number_of_slices_philips dump_of_24 "/data/im.dcm" empty_world))
    (temporary_text_file_of "/data/im.dcm") = None.
Proof.
  split; [reflexivity|].
  apply (philips_removes_dump_it_read dump_of_24 "/data/im.dcm" empty_world
           [manufacturer_line; slices_line_24]).
  reflexivity.
Defined.

(** X16. The call logs nothing or one warning.  It logs nothing only when
    the dump was read, a line held the marker and the last two characters
    before its '#' were an integer, which is then the result; in every
    other case it logs the one warning and returns 0. *)
Theorem philips_warning (os_system : string -> filesystem -> filesystem)
  (path_to_dicom : string) (w : world) :
  let r := get_number_of_slices_philips os_system path_to_dicom w in
  (warnings (snd r) = warnings w /\
   exists lines line,
     dumped_files os_system path_to_dicom w (temporary_text_file_of path_to_dicom)
     = Some (Text lines) /\
     find_marker_line lines = Some line /\
     int_of_str (str_last 2 (before_hash (without_spaces line))) = Ok (fst r)) \/
  (warnings (snd r) = warnings w ++ [no_slices_warning] /\ fst r = 0).
Proof.
  cbv zeta. rewrite philips_result.
  destruct (dumped_files os_system path_to_dicom w (temporary_text_file_of path_to_dicom))
    as [[lines|]|] eqn:D; try (right; split; reflexivity).
  destruct (find_marker_line lines) as [line|] eqn:M; [|right; split; reflexivity].
  destruct (int_of_str (str_last 2 (before_hash (without_spaces line)))) as [n|e] eqn:E;
    [|right; split; reflexivity].
  left. split; [reflexivity|]. exists lines, line. auto.
Qed.

(** ** Where the temporary file is *)

Lemma prefix_empty (s : string) : String.prefix "" s = true.
Proof. destruct s; reflexivity. Qed.

Lemma has_slash_cons (c : ascii) (s : string) :
  has_slash (String c s) = (Ascii.eqb c "/" || has_slash s)%bool.
Proof.
  unfold has_slash. cbn [str_contains String.prefix].
  destruct (ascii_dec "/" c) as [<-|N].
  - rewrite prefix_empty. reflexivity.
  - destruct (Ascii.eqb_spec c "/") as [E|_]; [symmetry in E; contradiction|reflexivity].
Qed.

Lemma has_slash_append (a b : string) : has_slash (a ++ String "/" b) = true.
Proof.
  induction a as [|c a IH]; simpl append.
  - rewrite has_slash_cons. reflexivity.
  - rewrite has_slash_cons, IH. apply orb_true_r.
Qed.

Lemma upto_last_slash_append (a name : string) :
  has_slash name = false ->
  upto_last_slash (a ++ String "/" name) = (a ++ "/")%string.
Proof.
  intros H. induction a as [|c a IH]; simpl append.
  - cbn [upto_last_slash]. rewrite H. reflexivity.
  - cbn [upto_last_slash]. rewrite has_slash_append, IH. reflexivity.
Qed.

Lemma upto_last_slash_none (name : string) :
  has_slash name = false -> upto_last_slash name = EmptyString.
Proof.
  induction name as [|c s IH]; [reflexivity|].
  rewrite has_slash_cons, orb_false_iff. intros [C S].
  cbn [upto_last_slash]. rewrite S, C. reflexivity.
Qed.

Lemma rstrip_slash_append (a : string) : rstrip_slash (a ++ "/") = rstrip_slash a.
Proof.
  induction a as [|c a IH]; [reflexivity|].
  simpl append. cbn [rstrip_slash]. rewrite IH. reflexivity.
Qed.

Lemma rstrip_slash_kept (a : string) :
  a <> EmptyString -> ends_with_slash a = false -> rstrip_slash a = a.
Proof.
  induction a as [|c a IH]; [contradiction|]. intros _ E.
  destruct a as [|d a'].
  - simpl in E. simpl. rewrite E. reflexivity.
  - assert (rstrip_slash (String d a') = String d a') as R
      by (apply IH; [discriminate|exact E]).
    cbn [rstrip_slash] in *. rewrite R. reflexivity.
Qed.

Lemma dirname_of_file (dir name : string) :
  dir <> EmptyString -> ends_with_slash dir = false -> has_slash name = false ->
  dirname (dir ++ String "/" name) = dir.
Proof.
  intros N E H. unfold dirname.
  rewrite (upto_last_slash_append dir name H), rstrip_slash_append,
    (rstrip_slash_kept dir N E).
  destruct dir; [contradiction|reflexivity].
Qed.

(** X17. The temporary file is "temp.txt" in the directory of the DICOM
    file: [dir/temp.txt] for a file [dir/name], and [temp.txt] in the
    current directory for a bare file name. *)
Theorem temporary_file_beside_input (dir name : string) :
  has_slash name = false ->
  temporary_text_file_of name = "temp.txt" /\
  (dir <> EmptyString -> ends_with_slash dir = false ->
   temporary_text_file_of (dir ++ String "/" name) = (dir ++ "/temp.txt")%string).
Proof.
  intros H. unfold temporary_text_file_of. split.
  - unfold dirname. rewrite (upto_last_slash_none name H). reflexivity.
  - intros N E. rewrite (dirname_of_file dir name N E H).
    unfold path_join. cbn [String.prefix].
    destruct (ascii_dec "/" "t") as [D|_]; [discriminate D|].
    rewrite E, orb_false_r.
    destruct (String.eqb_spec dir "") as [->|_]; [contradiction|reflexivity].
Qed.

Lemma temporary_file_beside_input_witness :
  has_slash "im.dcm" = false /\
  "/data/subject" <> EmptyString /\
  ends_with_slash "/data/subject" = false /\
  temporary_text_file_of "/data/subject/im.dcm" = "/data/subject/temp.txt".
Proof.
  split; [reflexivity|]. split; [discriminate|]. split; [reflexivity|].
  apply (proj2 (temporary_file_beside_input "/data/subject" "im.dcm" eq_refl));
    [discriminate|reflexivity].
Defined.

(** X18. A DICOM file that is itself named "temp.txt" is the temporary
    file of its own call: the shell writes the dump over it, and when that
    dump can be read the call removes it, so the input no longer exists
    afterwards. *)
Theorem philips_removes_input_named_temp (os_system : string -> filesystem -> filesystem)
  (dir : string) (w : world) (lines : list string) :
  dir <> EmptyString ->
  ends_with_slash dir = false ->
  dumped_files os_system (dir ++ "/temp.txt") w (dir ++ "/temp.txt")%string
  = Some (Text lines) ->
  temporary_text_file_of (dir ++ "/temp.txt") = (dir ++ "/temp.txt")%string /\
  files (snd (get_number_of_slices_philips os_system (dir ++ "/temp.txt") w))
    (dir ++ "/temp.txt")%string = None.
Proof.
  intros N E D.
  assert (temporary_text_file_of (dir ++ "/temp.txt") = (dir ++ "/temp.txt")%string) as T
    by (apply (proj2 (temporary_file_beside_input dir "temp.txt" eq_refl)); assumption).
  split; [exact T|].
  rewrite philips_result, T, D.
  assert (remove_file (resolve w) (dumped_files os_system (dir ++ "/temp.txt") w)
            (dir ++ "/temp.txt") (dir ++ "/temp.txt")%string = None) as R
    by (unfold remove_file; rewrite String.eqb_refl; reflexivity).
  destruct (find_marker_line lines) as [line|]; cbn [snd files logging_warning];
    [|exact R].
  destruct (int_of_str _); cbn [snd files logging_warning]; exact R.
Qed.

Lemma philips_removes_input_named_temp_witness :
  "/data" <> EmptyString /\
  ends_with_slash "/data" = false /\
  files world_with_input "/data/temp.txt" = Some (Text ["DICM"]) /\
  dumped_files dump_over_input "/data/temp.txt" world_with_input "/data/temp.txt"
  = Some (Text []) /\
  files (snd (get_number_of_slices_philips dump_over_input "/data/temp.txt"
                world_with_input)) "/data/temp.txt" = None.
Proof.
  split; [discriminate|]. split; [reflexivity|]. split; [reflexivity|].
  split; [reflexivity|].
  apply (philips_removes_input_named_temp dump_over_input "/data" world_with_input []);
    [discriminate|reflexivity|reflexivity].
Defined.

(** * Further properties of the order of the search *)

(** X19. The search is depth first by increasing tag, not by depth: on a
    tagged tree, the true entries met under the field with the smallest
    tag come first, so in first-match mode an entry nested under that
    field is returned ahead of any field of the top level. *)
Theorem walk_smallest_tag_first (l : list data_element) (de : data_element)
  (_tag : Tag) (v : pyvalue) (r : list pyvalue) :
  tagged_tree (Dataset l) = true ->
  In de l ->
  (forall x, In x l -> tag_leb (tag de) (tag x) = true) ->
  filter truthy (matches_element _tag de) = v :: r ->
  walk (Dataset l) walker_callback _tag false = Ok v /\
  exists tail,
    walk (Dataset l) walker_callback _tag true = Ok (PList (v :: r ++ tail)).
Proof.
  intros WF Hin Hmin F.
  pose proof (forall_dataset_elems _ _ _ WF) as [U _].
  destruct (sort_by_tag_head l de U Hin Hmin) as [rest S].
  assert (found _tag (Dataset l)
          = v :: r ++ filter truthy (flat_map (matches_element _tag) rest)) as E.
  { unfold found. rewrite matches_sorted. cbn [elems]. rewrite S.
    cbn [flat_map]. rewrite filter_app, F. reflexivity. }
  split.
  - rewrite (walk_found _tag false _ WF), E. reflexivity.
  - eexists. rewrite (walk_found _tag true _ WF), E. reflexivity.
Qed.

Lemma walk_smallest_tag_first_witness :
  let sq := DataElement (0x0008, 0x1140)%N "SQ"
              (PSeq [Dataset [DataElement (0x0018, 0x0081)%N "DS" (PFloat 5)]]) in
  tagged_tree nested_first_tree = true /\
  In sq (elems nested_first_tree) /\
  (forall x, In x (elems nested_first_tree) -> tag_leb (tag sq) (tag x) = true) /\
  filter truthy (matches_element (0x0018, 0x0081)%N sq) = [PFloat 5] /\
  walk nested_first_tree walker_callback (0x0018, 0x0081)%N false = Ok (PFloat 5).
Proof.
  assert (forall x, In x (elems nested_first_tree) ->
                    tag_leb (0x0008, 0x1140)%N (tag x) = true) as M
    by (intros x [<-|[<-|[]]]; reflexivity).
  cbv zeta.
  split; [reflexivity|]. split; [right; left; reflexivity|]. split; [exact M|].
  split; [reflexivity|].
  apply (walk_smallest_tag_first (elems nested_first_tree)
           (DataElement (0x0008, 0x1140)%N "SQ"
              (PSeq [Dataset [DataElement (0x0018, 0x0081)%N "DS" (PFloat 5)]]))
           (0x0018, 0x0081)%N (PFloat 5) []);
    [reflexivity|right; left; reflexivity|exact M|reflexivity].
Defined.

Lemma found_of_items (t : Tag) (items : list dataset) :
  filter truthy (flat_map (matches t) items) = flat_map (found t) items.
Proof.
  induction items as [|d more IH]; [reflexivity|].
  cbn [flat_map]. rewrite filter_app, IH. reflexivity.
Qed.

(** X20. Collecting over a sequence is collecting over its items: for a
    tagged tree made of one sequence whose tag is not the target, the list
    returned is the lists returned for the items (the frames), one after
    the other in the order of the items. *)
Theorem walk_collect_over_items (tg _tag : Tag) (items : list dataset) :
  tagged_tree (Dataset [DataElement tg "SQ" (PSeq items)]) = true ->
  tg <> _tag ->
  walk (Dataset [DataElement tg "SQ" (PSeq items)]) walker_callback _tag true
  = Ok (PList (flat_map (found _tag) items)) /\
  forall d, In d items ->
    walk d walker_callback _tag true = Ok (PList (found _tag d)).
Proof.
  intros WF N. split.
  - rewrite (walk_found _tag true _ WF). unfold walk_result, found at 1.
    cbn [matches map sort_by insert_by flat_map snd matches_element].
    apply tag_eqb_neq in N. rewrite N. cbn [matches_value].
    rewrite app_nil_r, found_of_items. reflexivity.
  - intros d Hd. apply (walk_found _tag true d).
    apply (forall_dataset_child _ _ _ d WF).
    exists (DataElement tg "SQ" (PSeq items)), items.
    split; [left; reflexivity|auto].
Qed.

Lemma walk_collect_over_items_witness :
  let frames := [Dataset [DataElement (0x0018, 0x9087)%N "FD" (PFloat 0)];
                 Dataset [DataElement (0x0018, 0x9087)%N "FD" (PFloat 1000)]] in
  tagged_tree (Dataset [DataElement (0x5200, 0x9230)%N "SQ" (PSeq frames)]) = true /\
  (0x5200, 0x9230)%N <> (0x0018, 0x9087)%N /\
  walk (Dataset [DataElement (0x5200, 0x9230)%N "SQ" (PSeq frames)])
    walker_callback (0x0018, 0x9087)%N true
  = Ok (PList (flat_map (found (0x0018, 0x9087)%N) frames)).
Proof.
  cbv zeta. split; [reflexivity|]. split; [discriminate|].
  apply (walk_collect_over_items (0x5200, 0x9230)%N (0x0018, 0x9087)%N);
    [reflexivity|discriminate].
Defined.
